(** * controller_plugin_base: control-mode negotiation and the control-loop gate

    A shallow embedding of [controller_base.hpp] / [controller_base.cpp]:
    the mode masks, the matcher [findBestMatchWithMask], the negotiation
    service [setControlModeSrvCall] with its helpers, the sample callbacks
    and the periodic [control_timer_callback].

    Conventions.
    - A [uint8_t] is a [Z]; the operators the code applies to it ([&], [==],
      [<]) are [Z.land], [Z.eqb] and [Z.ltb].  After integer promotion the
      C++ operators compute exactly these on values in [0, 255].
    - The object's members are the fields of the record [ControllerBase];
      every member function takes the object and returns the updated one.
    - What a call does to the outside (service requests, subclass hooks,
      publications, log lines) is returned as a list of [Event]s, oldest
      first. *)

From Stdlib Require Import ZArith List Bool Lia String.
From Stdlib Require Import Sorting.Permutation Sorting.Sorted.
From Stdlib Require Import Floats.PrimFloat.
Import ListNotations.
Local Open Scope Z_scope.

(** ** Mode codes and masks (controller_base.hpp, lines 70-75) *)

Definition uint8_t := Z.

Definition MATCH_ALL : uint8_t := 0xff.             (* 0b11111111 *)
Definition MATCH_MODE_AND_FRAME : uint8_t := 0xf3.  (* 0b11110011 *)
Definition MATCH_MODE : uint8_t := 0xf0.            (* 0b11110000 *)

Definition UNSET_MODE_MASK : uint8_t := 0x00.       (* 0b00000000 *)
Definition HOVER_MODE_MASK : uint8_t := 0x10.       (* 0b00010000 *)

(** ** ModeMatcher (controller_base.cpp, lines 50-72) *)

Definition checkMatchWithMask (mode1 mode2 mask : uint8_t) : bool :=
  Z.land mode1 mask =? Z.land mode2 mask.

(** The range-for of [findBestMatchWithMask]; [best_match] is the local
    variable, a [return] inside the loop ends the recursion. *)
Fixpoint findBestMatchWithMask_loop (mode mask : uint8_t)
    (mode_list : list uint8_t) (best_match : uint8_t) : uint8_t :=
  match mode_list with
  | [] => best_match
  | candidate :: rest =>
      if checkMatchWithMask mode candidate mask then
        if candidate =? mode then candidate
        else findBestMatchWithMask_loop mode mask rest candidate
      else findBestMatchWithMask_loop mode mask rest best_match
  end.

Definition findBestMatchWithMask (mode : uint8_t) (mode_list : list uint8_t)
    (mask : uint8_t) : uint8_t :=
  findBestMatchWithMask_loop mode mask mode_list 0.

(** A candidate is a masked match of [mode]. *)
Definition masked_match (mode mask candidate : uint8_t) : Prop :=
  Z.land candidate mask = Z.land mode mask.

(** ** Messages

    The message types come from the ROS 2 interface packages; the records
    below carry the fields this code stores, copies or stamps.  A [double] is
    a primitive binary64 float: the code never computes with one, it only
    moves them. *)

Record Time := { sec : Z; nanosec : Z }.

Record Header := { stamp : Time; frame_id : string }.

Record Point := { point_x : float; point_y : float; point_z : float }.

Record Quaternion :=
  { quat_x : float; quat_y : float; quat_z : float; quat_w : float }.

Record Vector3 := { vec_x : float; vec_y : float; vec_z : float }.

Record Pose := { position : Point; orientation : Quaternion }.

Record Twist := { linear : Vector3; angular : Vector3 }.

Record PoseStamped := { pose_header : Header; pose : Pose }.

Record TwistStamped := { twist_header : Header; twist : Twist }.

Record Thrust := { thrust_header : Header; thrust : float }.

Record JointTrajectoryPoint :=
  { positions : list float; velocities : list float;
    accelerations : list float; effort : list float;
    time_from_start : Time }.

(** as2_msgs/msg/ControlMode. *)
Record ControlMode :=
  { control_mode : uint8_t; yaw_mode : uint8_t; reference_frame : uint8_t }.

(** as2_msgs/msg/PlatformInfo: the two flags the control loop reads. *)
Record PlatformInfo := { armed : bool; offboard : bool }.

(** Value-initialised messages, as [geometry_msgs::msg::PoseStamped pose;]
    makes them. *)
Definition Time_zero : Time := {| sec := 0; nanosec := 0 |}.
Definition Header_default : Header := {| stamp := Time_zero; frame_id := EmptyString |}.
Definition PoseStamped_default : PoseStamped :=
  {| pose_header := Header_default;
     pose := {| position := {| point_x := 0; point_y := 0; point_z := 0 |};
                orientation := {| quat_x := 0; quat_y := 0; quat_z := 0; quat_w := 1 |} |} |}.
Definition TwistStamped_default : TwistStamped :=
  {| twist_header := Header_default;
     twist := {| linear := {| vec_x := 0; vec_y := 0; vec_z := 0 |};
                 angular := {| vec_x := 0; vec_y := 0; vec_z := 0 |} |} |}.
Definition Thrust_default : Thrust :=
  {| thrust_header := Header_default; thrust := 0 |}.
Definition JointTrajectoryPoint_default : JointTrajectoryPoint :=
  {| positions := []; velocities := []; accelerations := []; effort := [];
     time_from_start := Time_zero |}.
Definition ControlMode_default : ControlMode :=
  {| control_mode := 0; yaw_mode := 0; reference_frame := 0 |}.
Definition PlatformInfo_default : PlatformInfo :=
  {| armed := false; offboard := false |}.

Definition with_pose_stamp (t : Time) (m : PoseStamped) : PoseStamped :=
  {| pose_header := {| stamp := t; frame_id := frame_id (pose_header m) |};
     pose := pose m |}.
Definition with_twist_stamp (t : Time) (m : TwistStamped) : TwistStamped :=
  {| twist_header := {| stamp := t; frame_id := frame_id (twist_header m) |};
     twist := twist m |}.
Definition with_thrust_header (h : Header) (m : Thrust) : Thrust :=
  {| thrust_header := h; thrust := thrust m |}.

(** ** External collaborators *)

(** What this code uses of as2_core's control_mode_utils and of the constants
    of as2_msgs/msg/ControlMode.  Neither is part of this package: they are
    taken as an interface, and every result below holds for each
    implementation of it. *)
Class ControlModeUtils := {
  ControlMode_UNSET : uint8_t;
  ControlMode_HOVER : uint8_t;
  convertAS2ControlModeToUint8t : ControlMode -> uint8_t;
  convertUint8tToAS2ControlMode : uint8_t -> ControlMode
}.

(** The platform's two services as one call of [setControlModeSrvCall] sees
    them: what [sendRequest] returns and what it leaves in the response. *)
Record PlatformServices := {
  list_control_modes : bool * list uint8_t;
  set_platform_control_mode : ControlMode -> bool * bool
}.

(** The virtual member functions of [ControllerBase], over the subclass's own
    members [S].  A hook reads and writes the subclass's members only. *)
Class ControllerPlugin (S : Type) := {
  ownInitialize : S -> S;
  updateState : PoseStamped -> TwistStamped -> S -> S;
  updateReference_pose : PoseStamped -> S -> S;
  updateReference_twist : TwistStamped -> S -> S;
  updateReference_traj : JointTrajectoryPoint -> S -> S;
  computeOutput : PoseStamped -> TwistStamped -> Thrust -> S ->
                  PoseStamped * TwistStamped * Thrust * S;
  setMode : ControlMode -> ControlMode -> S -> bool * S
}.

(** ** Observable effects *)

Inductive LogLevel := DEBUG | INFO | WARN | ERROR.

(** What leaves the object during a callback.  A log line is its format
    string, without the formatted arguments; [LogThrottle] is a call of the
    throttled macro, printed or not as the clock decides.  [ServiceResponse]
    is the response of [setControlModeSrvCall] going back to the caller. *)
Inductive Event :=
| CallListControlModes
| CallSetPlatformControlMode (mode : ControlMode)
| HookOwnInitialize
| HookUpdateState (pose_msg : PoseStamped) (twist_msg : TwistStamped)
| HookUpdateReferencePose (ref : PoseStamped)
| HookUpdateReferenceTwist (ref : TwistStamped)
| HookUpdateReferenceTraj (ref : JointTrajectoryPoint)
| HookComputeOutput
| HookSetMode (mode_in mode_out : ControlMode)
| PublishPose (msg : PoseStamped)
| PublishTwist (msg : TwistStamped)
| PublishThrust (msg : Thrust)
| PrintControlMode (mode : ControlMode)
| Log (level : LogLevel) (text : string)
| LogThrottle (level : LogLevel) (text : string)
| ServiceResponse (success : bool).

(** A tick acts when it publishes or runs the subclass's computation. *)
Definition is_action (e : Event) : bool :=
  match e with
  | HookComputeOutput | PublishPose _ | PublishTwist _ | PublishThrust _ => true
  | _ => false
  end.

(** ** The members of ControllerBase (controller_base.hpp, lines 81-121 and
    168-172) *)

Record ControllerBase := {
  controller_available_modes_in_ : list uint8_t;
  controller_available_modes_out_ : list uint8_t;
  platform_available_modes_in_ : list uint8_t;
  platform_info_ : PlatformInfo;
  control_mode_established_ : bool;
  motion_reference_adquired_ : bool;
  state_adquired_ : bool;
  input_mode_ : ControlMode;
  output_mode_ : ControlMode;
  prefered_output_mode_ : uint8_t;
  use_bypass_ : bool;
  bypass_controller_ : bool;
  pose_ : PoseStamped;
  twist_ : TwistStamped;
  ref_pose_ : PoseStamped;
  ref_twist_ : TwistStamped;
  ref_traj_ : JointTrajectoryPoint
}.

(** The default member initialisers. *)
Definition ControllerBase_new : ControllerBase := {|
  controller_available_modes_in_ := [];
  controller_available_modes_out_ := [];
  platform_available_modes_in_ := [];
  platform_info_ := PlatformInfo_default;
  control_mode_established_ := false;
  motion_reference_adquired_ := false;
  state_adquired_ := false;
  input_mode_ := ControlMode_default;
  output_mode_ := ControlMode_default;
  prefered_output_mode_ := 0;
  use_bypass_ := false;
  bypass_controller_ := false;
  pose_ := PoseStamped_default;
  twist_ := TwistStamped_default;
  ref_pose_ := PoseStamped_default;
  ref_twist_ := TwistStamped_default;
  ref_traj_ := JointTrajectoryPoint_default
|}.

(** Assignments to one member; the others are copied.  [prefered_output_mode_]
    is private and nothing assigns it. *)
Definition set_controller_available_modes_in_ (v : list uint8_t) (self : ControllerBase)
    : ControllerBase :=
  {| controller_available_modes_in_ := v;
     controller_available_modes_out_ := controller_available_modes_out_ self;
     platform_available_modes_in_ := platform_available_modes_in_ self;
     platform_info_ := platform_info_ self;
     control_mode_established_ := control_mode_established_ self;
     motion_reference_adquired_ := motion_reference_adquired_ self;
     state_adquired_ := state_adquired_ self; input_mode_ := input_mode_ self;
     output_mode_ := output_mode_ self;
     prefered_output_mode_ := prefered_output_mode_ self;
     use_bypass_ := use_bypass_ self;
     bypass_controller_ := bypass_controller_ self; pose_ := pose_ self;
     twist_ := twist_ self; ref_pose_ := ref_pose_ self;
     ref_twist_ := ref_twist_ self; ref_traj_ := ref_traj_ self |}.

Definition set_controller_available_modes_out_ (v : list uint8_t) (self : ControllerBase)
    : ControllerBase :=
  {| controller_available_modes_in_ := controller_available_modes_in_ self;
     controller_available_modes_out_ := v;
     platform_available_modes_in_ := platform_available_modes_in_ self;
     platform_info_ := platform_info_ self;
     control_mode_established_ := control_mode_established_ self;
     motion_reference_adquired_ := motion_reference_adquired_ self;
     state_adquired_ := state_adquired_ self; input_mode_ := input_mode_ self;
     output_mode_ := output_mode_ self;
     prefered_output_mode_ := prefered_output_mode_ self;
     use_bypass_ := use_bypass_ self;
     bypass_controller_ := bypass_controller_ self; pose_ := pose_ self;
     twist_ := twist_ self; ref_pose_ := ref_pose_ self;
     ref_twist_ := ref_twist_ self; ref_traj_ := ref_traj_ self |}.

Definition set_platform_available_modes_in_ (v : list uint8_t) (self : ControllerBase)
    : ControllerBase :=
  {| controller_available_modes_in_ := controller_available_modes_in_ self;
     controller_available_modes_out_ := controller_available_modes_out_ self;
     platform_available_modes_in_ := v; platform_info_ := platform_info_ self;
     control_mode_established_ := control_mode_established_ self;
     motion_reference_adquired_ := motion_reference_adquired_ self;
     state_adquired_ := state_adquired_ self; input_mode_ := input_mode_ self;
     output_mode_ := output_mode_ self;
     prefered_output_mode_ := prefered_output_mode_ self;
     use_bypass_ := use_bypass_ self;
     bypass_controller_ := bypass_controller_ self; pose_ := pose_ self;
     twist_ := twist_ self; ref_pose_ := ref_pose_ self;
     ref_twist_ := ref_twist_ self; ref_traj_ := ref_traj_ self |}.

Definition set_platform_info_ (v : PlatformInfo) (self : ControllerBase)
    : ControllerBase :=
  {| controller_available_modes_in_ := controller_available_modes_in_ self;
     controller_available_modes_out_ := controller_available_modes_out_ self;
     platform_available_modes_in_ := platform_available_modes_in_ self;
     platform_info_ := v;
     control_mode_established_ := control_mode_established_ self;
     motion_reference_adquired_ := motion_reference_adquired_ self;
     state_adquired_ := state_adquired_ self; input_mode_ := input_mode_ self;
     output_mode_ := output_mode_ self;
     prefered_output_mode_ := prefered_output_mode_ self;
     use_bypass_ := use_bypass_ self;
     bypass_controller_ := bypass_controller_ self; pose_ := pose_ self;
     twist_ := twist_ self; ref_pose_ := ref_pose_ self;
     ref_twist_ := ref_twist_ self; ref_traj_ := ref_traj_ self |}.

Definition set_control_mode_established_ (v : bool) (self : ControllerBase)
    : ControllerBase :=
  {| controller_available_modes_in_ := controller_available_modes_in_ self;
     controller_available_modes_out_ := controller_available_modes_out_ self;
     platform_available_modes_in_ := platform_available_modes_in_ self;
     platform_info_ := platform_info_ self; control_mode_established_ := v;
     motion_reference_adquired_ := motion_reference_adquired_ self;
     state_adquired_ := state_adquired_ self; input_mode_ := input_mode_ self;
     output_mode_ := output_mode_ self;
     prefered_output_mode_ := prefered_output_mode_ self;
     use_bypass_ := use_bypass_ self;
     bypass_controller_ := bypass_controller_ self; pose_ := pose_ self;
     twist_ := twist_ self; ref_pose_ := ref_pose_ self;
     ref_twist_ := ref_twist_ self; ref_traj_ := ref_traj_ self |}.

Definition set_motion_reference_adquired_ (v : bool) (self : ControllerBase)
    : ControllerBase :=
  {| controller_available_modes_in_ := controller_available_modes_in_ self;
     controller_available_modes_out_ := controller_available_modes_out_ self;
     platform_available_modes_in_ := platform_available_modes_in_ self;
     platform_info_ := platform_info_ self;
     control_mode_established_ := control_mode_established_ self;
     motion_reference_adquired_ := v; state_adquired_ := state_adquired_ self;
     input_mode_ := input_mode_ self; output_mode_ := output_mode_ self;
     prefered_output_mode_ := prefered_output_mode_ self;
     use_bypass_ := use_bypass_ self;
     bypass_controller_ := bypass_controller_ self; pose_ := pose_ self;
     twist_ := twist_ self; ref_pose_ := ref_pose_ self;
     ref_twist_ := ref_twist_ self; ref_traj_ := ref_traj_ self |}.

Definition set_state_adquired_ (v : bool) (self : ControllerBase)
    : ControllerBase :=
  {| controller_available_modes_in_ := controller_available_modes_in_ self;
     controller_available_modes_out_ := controller_available_modes_out_ self;
     platform_available_modes_in_ := platform_available_modes_in_ self;
     platform_info_ := platform_info_ self;
     control_mode_established_ := control_mode_established_ self;
     motion_reference_adquired_ := motion_reference_adquired_ self;
     state_adquired_ := v; input_mode_ := input_mode_ self;
     output_mode_ := output_mode_ self;
     prefered_output_mode_ := prefered_output_mode_ self;
     use_bypass_ := use_bypass_ self;
     bypass_controller_ := bypass_controller_ self; pose_ := pose_ self;
     twist_ := twist_ self; ref_pose_ := ref_pose_ self;
     ref_twist_ := ref_twist_ self; ref_traj_ := ref_traj_ self |}.

Definition set_input_mode_ (v : ControlMode) (self : ControllerBase)
    : ControllerBase :=
  {| controller_available_modes_in_ := controller_available_modes_in_ self;
     controller_available_modes_out_ := controller_available_modes_out_ self;
     platform_available_modes_in_ := platform_available_modes_in_ self;
     platform_info_ := platform_info_ self;
     control_mode_established_ := control_mode_established_ self;
     motion_reference_adquired_ := motion_reference_adquired_ self;
     state_adquired_ := state_adquired_ self; input_mode_ := v;
     output_mode_ := output_mode_ self;
     prefered_output_mode_ := prefered_output_mode_ self;
     use_bypass_ := use_bypass_ self;
     bypass_controller_ := bypass_controller_ self; pose_ := pose_ self;
     twist_ := twist_ self; ref_pose_ := ref_pose_ self;
     ref_twist_ := ref_twist_ self; ref_traj_ := ref_traj_ self |}.

Definition set_output_mode_ (v : ControlMode) (self : ControllerBase)
    : ControllerBase :=
  {| controller_available_modes_in_ := controller_available_modes_in_ self;
     controller_available_modes_out_ := controller_available_modes_out_ self;
     platform_available_modes_in_ := platform_available_modes_in_ self;
     platform_info_ := platform_info_ self;
     control_mode_established_ := control_mode_established_ self;
     motion_reference_adquired_ := motion_reference_adquired_ self;
     state_adquired_ := state_adquired_ self; input_mode_ := input_mode_ self;
     output_mode_ := v; prefered_output_mode_ := prefered_output_mode_ self;
     use_bypass_ := use_bypass_ self;
     bypass_controller_ := bypass_controller_ self; pose_ := pose_ self;
     twist_ := twist_ self; ref_pose_ := ref_pose_ self;
     ref_twist_ := ref_twist_ self; ref_traj_ := ref_traj_ self |}.

Definition set_use_bypass_ (v : bool) (self : ControllerBase)
    : ControllerBase :=
  {| controller_available_modes_in_ := controller_available_modes_in_ self;
     controller_available_modes_out_ := controller_available_modes_out_ self;
     platform_available_modes_in_ := platform_available_modes_in_ self;
     platform_info_ := platform_info_ self;
     control_mode_established_ := control_mode_established_ self;
     motion_reference_adquired_ := motion_reference_adquired_ self;
     state_adquired_ := state_adquired_ self; input_mode_ := input_mode_ self;
     output_mode_ := output_mode_ self;
     prefered_output_mode_ := prefered_output_mode_ self; use_bypass_ := v;
     bypass_controller_ := bypass_controller_ self; pose_ := pose_ self;
     twist_ := twist_ self; ref_pose_ := ref_pose_ self;
     ref_twist_ := ref_twist_ self; ref_traj_ := ref_traj_ self |}.

Definition set_bypass_controller_ (v : bool) (self : ControllerBase)
    : ControllerBase :=
  {| controller_available_modes_in_ := controller_available_modes_in_ self;
     controller_available_modes_out_ := controller_available_modes_out_ self;
     platform_available_modes_in_ := platform_available_modes_in_ self;
     platform_info_ := platform_info_ self;
     control_mode_established_ := control_mode_established_ self;
     motion_reference_adquired_ := motion_reference_adquired_ self;
     state_adquired_ := state_adquired_ self; input_mode_ := input_mode_ self;
     output_mode_ := output_mode_ self;
     prefered_output_mode_ := prefered_output_mode_ self;
     use_bypass_ := use_bypass_ self; bypass_controller_ := v;
     pose_ := pose_ self; twist_ := twist_ self; ref_pose_ := ref_pose_ self;
     ref_twist_ := ref_twist_ self; ref_traj_ := ref_traj_ self |}.

Definition set_pose_ (v : PoseStamped) (self : ControllerBase)
    : ControllerBase :=
  {| controller_available_modes_in_ := controller_available_modes_in_ self;
     controller_available_modes_out_ := controller_available_modes_out_ self;
     platform_available_modes_in_ := platform_available_modes_in_ self;
     platform_info_ := platform_info_ self;
     control_mode_established_ := control_mode_established_ self;
     motion_reference_adquired_ := motion_reference_adquired_ self;
     state_adquired_ := state_adquired_ self; input_mode_ := input_mode_ self;
     output_mode_ := output_mode_ self;
     prefered_output_mode_ := prefered_output_mode_ self;
     use_bypass_ := use_bypass_ self;
     bypass_controller_ := bypass_controller_ self; pose_ := v;
     twist_ := twist_ self; ref_pose_ := ref_pose_ self;
     ref_twist_ := ref_twist_ self; ref_traj_ := ref_traj_ self |}.

Definition set_twist_ (v : TwistStamped) (self : ControllerBase)
    : ControllerBase :=
  {| controller_available_modes_in_ := controller_available_modes_in_ self;
     controller_available_modes_out_ := controller_available_modes_out_ self;
     platform_available_modes_in_ := platform_available_modes_in_ self;
     platform_info_ := platform_info_ self;
     control_mode_established_ := control_mode_established_ self;
     motion_reference_adquired_ := motion_reference_adquired_ self;
     state_adquired_ := state_adquired_ self; input_mode_ := input_mode_ self;
     output_mode_ := output_mode_ self;
     prefered_output_mode_ := prefered_output_mode_ self;
     use_bypass_ := use_bypass_ self;
     bypass_controller_ := bypass_controller_ self; pose_ := pose_ self;
     twist_ := v; ref_pose_ := ref_pose_ self; ref_twist_ := ref_twist_ self;
     ref_traj_ := ref_traj_ self |}.

Definition set_ref_pose_ (v : PoseStamped) (self : ControllerBase)
    : ControllerBase :=
  {| controller_available_modes_in_ := controller_available_modes_in_ self;
     controller_available_modes_out_ := controller_available_modes_out_ self;
     platform_available_modes_in_ := platform_available_modes_in_ self;
     platform_info_ := platform_info_ self;
     control_mode_established_ := control_mode_established_ self;
     motion_reference_adquired_ := motion_reference_adquired_ self;
     state_adquired_ := state_adquired_ self; input_mode_ := input_mode_ self;
     output_mode_ := output_mode_ self;
     prefered_output_mode_ := prefered_output_mode_ self;
     use_bypass_ := use_bypass_ self;
     bypass_controller_ := bypass_controller_ self; pose_ := pose_ self;
     twist_ := twist_ self; ref_pose_ := v; ref_twist_ := ref_twist_ self;
     ref_traj_ := ref_traj_ self |}.

Definition set_ref_twist_ (v : TwistStamped) (self : ControllerBase)
    : ControllerBase :=
  {| controller_available_modes_in_ := controller_available_modes_in_ self;
     controller_available_modes_out_ := controller_available_modes_out_ self;
     platform_available_modes_in_ := platform_available_modes_in_ self;
     platform_info_ := platform_info_ self;
     control_mode_established_ := control_mode_established_ self;
     motion_reference_adquired_ := motion_reference_adquired_ self;
     state_adquired_ := state_adquired_ self; input_mode_ := input_mode_ self;
     output_mode_ := output_mode_ self;
     prefered_output_mode_ := prefered_output_mode_ self;
     use_bypass_ := use_bypass_ self;
     bypass_controller_ := bypass_controller_ self; pose_ := pose_ self;
     twist_ := twist_ self; ref_pose_ := ref_pose_ self; ref_twist_ := v;
     ref_traj_ := ref_traj_ self |}.

Definition set_ref_traj_ (v : JointTrajectoryPoint) (self : ControllerBase)
    : ControllerBase :=
  {| controller_available_modes_in_ := controller_available_modes_in_ self;
     controller_available_modes_out_ := controller_available_modes_out_ self;
     platform_available_modes_in_ := platform_available_modes_in_ self;
     platform_info_ := platform_info_ self;
     control_mode_established_ := control_mode_established_ self;
     motion_reference_adquired_ := motion_reference_adquired_ self;
     state_adquired_ := state_adquired_ self; input_mode_ := input_mode_ self;
     output_mode_ := output_mode_ self;
     prefered_output_mode_ := prefered_output_mode_ self;
     use_bypass_ := use_bypass_ self;
     bypass_controller_ := bypass_controller_ self; pose_ := pose_ self;
     twist_ := twist_ self; ref_pose_ := ref_pose_ self;
     ref_twist_ := ref_twist_ self; ref_traj_ := v |}.

(** The object: the base class's members and the subclass's. *)
Record Controller (S : Type) := { base : ControllerBase; plugin : S }.
Arguments base {S} _.
Arguments plugin {S} _.
Arguments Build_Controller {S} _ _.

(** ** Configuration (controller_base.hpp, lines 143-153) *)

(** [std::sort] on bytes: the ascending arrangement of the elements. *)
Fixpoint insert_ascending (x : uint8_t) (l : list uint8_t) : list uint8_t :=
  match l with
  | [] => [x]
  | y :: rest => if x <=? y then x :: l else y :: insert_ascending x rest
  end.

Definition sort_ascending (l : list uint8_t) : list uint8_t :=
  fold_right insert_ascending [] l.

Definition setInputControlModesAvailables (available_modes : list uint8_t)
    (self : ControllerBase) : ControllerBase :=
  set_controller_available_modes_in_ (sort_ascending available_modes) self.

Definition setOutputControlModesAvailables (available_modes : list uint8_t)
    (self : ControllerBase) : ControllerBase :=
  set_controller_available_modes_out_ (sort_ascending available_modes) self.

Definition getMode (self : ControllerBase) : ControlMode := input_mode_ self.

Section Negotiation.
Context {utils : ControlModeUtils}.

(** ** initialize (controller_base.cpp, lines 74-129): the members it writes.
    [use_bypass] is the node parameter, absent when it was never declared. *)
Definition initialize_members (use_bypass : option bool) (self : ControllerBase)
    : ControllerBase :=
  let self := match use_bypass with
              | Some b => set_use_bypass_ b self
              | None => self
              end in
  let self := set_input_mode_
                {| control_mode := ControlMode_UNSET;
                   yaw_mode := yaw_mode (input_mode_ self);
                   reference_frame := reference_frame (input_mode_ self) |} self in
  set_output_mode_
    {| control_mode := ControlMode_UNSET;
       yaw_mode := yaw_mode (output_mode_ self);
       reference_frame := reference_frame (output_mode_ self) |} self.

(** ** setPlatformControlMode (lines 195-204) *)
Definition setPlatformControlMode (platform : PlatformServices) (mode : ControlMode)
    : bool * list Event :=
  let '(out, success) := set_platform_control_mode platform mode in
  (out && success, [CallSetPlatformControlMode mode]).

(** ** listPlatformAvailableControlModes (lines 206-238) *)
Definition listPlatformAvailableControlModes (platform : PlatformServices)
    (self : ControllerBase) : bool * ControllerBase * list Event :=
  match platform_available_modes_in_ self with
  | [] =>
      let '(out, control_modes) := list_control_modes platform in
      let asked := [Log DEBUG "LISTING AVAILABLE MODES"; CallListControlModes] in
      if negb out then
        (false, self, asked ++ [Log ERROR "Error listing control_modes"])
      else
        match control_modes with
        | [] => (false, self, asked ++ [Log ERROR "No available control modes"])
        | _ :: _ =>
            (true, set_platform_available_modes_in_ control_modes self,
             asked ++ map (fun _ => Log DEBUG "Available mode: %s") control_modes)
        end
  | _ :: _ => (true, self, [])
  end.

(** ** tryToBypassController (lines 240-257).  The reference parameter
    [output_mode] comes back as the second component. *)
Definition tryToBypassController (self : ControllerBase) (input_mode output_mode : uint8_t)
    : bool * uint8_t :=
  if (Z.land input_mode MATCH_MODE =? UNSET_MODE_MASK)
     || (Z.land input_mode MATCH_MODE =? HOVER_MODE_MASK)
  then (false, output_mode)
  else
    let candidate_mode :=
      findBestMatchWithMask input_mode (platform_available_modes_in_ self) MATCH_ALL in
    if negb (candidate_mode =? 0) then (true, candidate_mode)
    else (false, output_mode).

(** ** checkSuitabilityInputMode (lines 259-288) *)

(** How the range-for over [controller_available_modes_in_] ends: with the
    [return true] of its first branch, or with [mode_found] set by the
    [break] of the second or left false. *)
Inductive InputScan := ReturnedTrue | ModeFound (mode_found : bool).

Fixpoint checkSuitabilityInputMode_loop (input_mode : uint8_t)
    (modes : list uint8_t) : InputScan :=
  match modes with
  | [] => ModeFound false
  | mode :: rest =>
      if (Z.land input_mode MATCH_MODE =? HOVER_MODE_MASK)
         && (Z.land input_mode MATCH_MODE =? mode)
      then ReturnedTrue
      else if mode =? input_mode then ModeFound true
      else checkSuitabilityInputMode_loop input_mode rest
  end.

(** The comparison of line 280.  Its right operand masks the output mode with
    the literal [0b1111000] (seven digits, 0x78: bits 6 to 3). *)
Definition lower_level_than_output (input_mode output_mode : uint8_t) : bool :=
  Z.land input_mode MATCH_MODE <? Z.land output_mode 0x78.

Definition checkSuitabilityInputMode (self : ControllerBase)
    (input_mode output_mode : uint8_t) : bool * list Event :=
  match checkSuitabilityInputMode_loop input_mode (controller_available_modes_in_ self) with
  | ReturnedTrue => (true, [])
  | ModeFound mode_found =>
      if lower_level_than_output input_mode output_mode then
        (false, [Log ERROR "Input control mode has lower level than output control mode"])
      else (mode_found, [])
  end.

(** ** findSuitableOutputControlModeForPlatformInputMode (lines 290-327) *)

(** The range-for over [controller_available_modes_out_]; [common_mode] is
    the local variable, assigned on every mode that is not skipped. *)
Fixpoint findSuitableOutput_loop (platform_modes modes_out : list uint8_t)
    (common_mode : uint8_t) : uint8_t :=
  match modes_out with
  | [] => common_mode
  | mode_out :: rest =>
      if (Z.land mode_out MATCH_MODE =? UNSET_MODE_MASK)
         || (Z.land mode_out MATCH_MODE =? HOVER_MODE_MASK)
      then findSuitableOutput_loop platform_modes rest common_mode
      else findSuitableOutput_loop platform_modes rest
             (findBestMatchWithMask mode_out platform_modes MATCH_ALL)
  end.

Definition scanOutputModes (self : ControllerBase) (output_mode : uint8_t)
    : bool * uint8_t :=
  let common_mode :=
    findSuitableOutput_loop (platform_available_modes_in_ self)
      (controller_available_modes_out_ self) 0 in
  if common_mode =? 0 then (false, output_mode) else (true, common_mode).

Definition findSuitableOutputControlModeForPlatformInputMode (self : ControllerBase)
    (output_mode input_mode : uint8_t) : bool * uint8_t :=
  if negb (prefered_output_mode_ self =? 0) then
    let match_ :=
      findBestMatchWithMask (prefered_output_mode_ self)
        (platform_available_modes_in_ self) MATCH_ALL in
    if negb (match_ =? 0) then (true, match_)
    else scanOutputModes self output_mode
  else scanOutputModes self output_mode.

End Negotiation.

Section Callbacks.
Context {utils : ControlModeUtils} {S : Type} {hooks : ControllerPlugin S}.

(** ** initialize, as far as the object is concerned *)
Definition initialize (use_bypass : option bool) (self : Controller S)
    : Controller S * list Event :=
  ({| base := initialize_members use_bypass (base self);
      plugin := ownInitialize (plugin self) |},
   [HookOwnInitialize]).

(** ** The sample callbacks (lines 131-169) *)

Definition state_callback (pose_msg : PoseStamped) (twist_msg : TwistStamped)
    (self : Controller S) : Controller S * list Event :=
  let b := set_state_adquired_ true (base self) in
  let b := set_pose_ pose_msg b in
  let b := set_twist_ twist_msg b in
  if negb (bypass_controller_ b) then
    ({| base := b; plugin := updateState (pose_ b) (twist_ b) (plugin self) |},
     [HookUpdateState (pose_ b) (twist_ b)])
  else ({| base := b; plugin := plugin self |}, []).

Definition ref_pose_callback (msg : PoseStamped) (self : Controller S)
    : Controller S * list Event :=
  let b := set_motion_reference_adquired_ true (base self) in
  let b := set_ref_pose_ msg b in
  if negb (bypass_controller_ b) then
    ({| base := b; plugin := updateReference_pose (ref_pose_ b) (plugin self) |},
     [HookUpdateReferencePose (ref_pose_ b)])
  else ({| base := b; plugin := plugin self |}, []).

Definition ref_twist_callback (msg : TwistStamped) (self : Controller S)
    : Controller S * list Event :=
  let b := set_motion_reference_adquired_ true (base self) in
  let b := set_ref_twist_ msg b in
  if negb (bypass_controller_ b) then
    ({| base := b; plugin := updateReference_twist (ref_twist_ b) (plugin self) |},
     [HookUpdateReferenceTwist (ref_twist_ b)])
  else ({| base := b; plugin := plugin self |}, []).

Definition ref_traj_callback (msg : JointTrajectoryPoint) (self : Controller S)
    : Controller S * list Event :=
  let b := set_motion_reference_adquired_ true (base self) in
  let b := set_ref_traj_ msg b in
  if negb (bypass_controller_ b) then
    ({| base := b; plugin := updateReference_traj (ref_traj_ b) (plugin self) |},
     [HookUpdateReferenceTraj (ref_traj_ b)])
  else ({| base := b; plugin := plugin self |}, []).

Definition platform_info_callback (msg : PlatformInfo) (self : Controller S)
    : Controller S * list Event :=
  ({| base := set_platform_info_ msg (base self); plugin := plugin self |}, []).

(** ** sendCommand (lines 431-459); [now] is what [node_ptr_->now()] reads *)
Definition sendCommand (now : Time) (self : Controller S)
    : Controller S * list Event :=
  let b := base self in
  if bypass_controller_ b then
    if negb (motion_reference_adquired_ b) then
      (self, [LogThrottle INFO "Waiting for motion reference"])
    else (self, [PublishPose (ref_pose_ b); PublishTwist (ref_twist_ b)])
  else
    let '(pose, twist, thrust, s) :=
      computeOutput PoseStamped_default TwistStamped_default Thrust_default
        (plugin self) in
    let pose := with_pose_stamp now pose in
    let twist := with_twist_stamp (stamp (pose_header pose)) twist in
    let thrust := with_thrust_header (pose_header pose) thrust in
    ({| base := b; plugin := s |},
     [HookComputeOutput; PublishPose pose; PublishTwist twist; PublishThrust thrust]).

(** ** control_timer_callback (lines 171-192) *)
Definition control_timer_callback (now : Time) (self : Controller S)
    : Controller S * list Event :=
  let b := base self in
  if negb (offboard (platform_info_ b)) || negb (armed (platform_info_ b)) then
    (self, [])
  else if negb (control_mode_established_ b) then (self, [])
  else if negb (state_adquired_ b) then
    (self, [LogThrottle INFO "Waiting for odometry "])
  else sendCommand now self.

(** ** setControlModeSrvCall (lines 329-429).  The second component is
    [response->success]. *)
Definition desired_input_mode (request : ControlMode) : uint8_t :=
  if control_mode request =? ControlMode_HOVER then HOVER_MODE_MASK
  else convertAS2ControlModeToUint8t request.

Definition setControlModeSrvCall (platform : PlatformServices)
    (request : ControlMode) (self : Controller S)
    : Controller S * bool * list Event :=
  let b := set_control_mode_established_ false (base self) in
  let input_control_mode_desired := desired_input_mode request in
  let '(listed, b, ev_list) := listPlatformAvailableControlModes platform b in
  if negb listed then ({| base := b; plugin := plugin self |}, false, ev_list)
  else
    let output_control_mode_candidate := 0 in
    let '(bypass, output_control_mode_candidate) :=
      if use_bypass_ b then
        tryToBypassController b input_control_mode_desired output_control_mode_candidate
      else (false, output_control_mode_candidate) in
    let b := set_bypass_controller_ bypass b in
    (* the block under [if (!bypass_controller_)]: [None] when it returns *)
    let validated : option uint8_t * list Event :=
      if negb (bypass_controller_ b) then
        let '(success, candidate) :=
          findSuitableOutputControlModeForPlatformInputMode b
            output_control_mode_candidate input_control_mode_desired in
        if negb success then
          (None, [Log WARN "No suitable output control mode found"])
        else
          let '(success, ev_check) :=
            checkSuitabilityInputMode b input_control_mode_desired candidate in
          if negb success then
            (None, ev_check ++
                   [Log ERROR "Input control mode is not suitable for this controller"])
          else (Some candidate, ev_check)
      else (Some output_control_mode_candidate, []) in
    match validated with
    | (None, ev_valid) =>
        ({| base := b; plugin := plugin self |}, false, ev_list ++ ev_valid)
    | (Some output_control_mode_candidate, ev_valid) =>
        let mode_to_request :=
          convertUint8tToAS2ControlMode output_control_mode_candidate in
        let '(accepted, ev_set) := setPlatformControlMode platform mode_to_request in
        if negb accepted then
          ({| base := b; plugin := plugin self |}, false,
           ev_list ++ ev_valid ++ ev_set ++
           [Log ERROR "Failed to set platform control mode"])
        else
          let b := set_input_mode_ request b in
          let b := set_output_mode_ mode_to_request b in
          if bypass_controller_ b then
            let unset_mode := convertUint8tToAS2ControlMode UNSET_MODE_MASK in
            let '(success, s) := setMode unset_mode unset_mode (plugin self) in
            let b := set_control_mode_established_ success b in
            ({| base := b; plugin := s |}, success,
             ev_list ++ ev_valid ++ ev_set ++
             [Log INFO "Bypassing controller:"; Log INFO "input_mode:[%s]";
              Log INFO "output_mode:[%s]"; PrintControlMode (output_mode_ b);
              HookSetMode unset_mode unset_mode])
          else
            let '(success, s) := setMode (input_mode_ b) (output_mode_ b) (plugin self) in
            let b := set_control_mode_established_ success b in
            let ev_fail :=
              if negb success then
                [Log ERROR "Failed to set control mode in the controller"]
              else [] in
            let b := set_state_adquired_ false b in
            let b := set_motion_reference_adquired_ false b in
            ({| base := b; plugin := s |}, success,
             ev_list ++ ev_valid ++ ev_set ++
             [Log INFO "input_mode:[%s]"; Log INFO "output_mode:[%s]";
              HookSetMode (input_mode_ b) (output_mode_ b)] ++ ev_fail)
    end.

(** ** The executor: one callback at a time, in arrival order *)

Inductive Input :=
| StateSample (pose_msg : PoseStamped) (twist_msg : TwistStamped)
| RefPoseSample (msg : PoseStamped)
| RefTwistSample (msg : TwistStamped)
| RefTrajSample (msg : JointTrajectoryPoint)
| PlatformInfoSample (msg : PlatformInfo)
| SetControlModeCall (platform : PlatformServices) (request : ControlMode)
| TimerTick (now : Time).

Definition dispatch (i : Input) (self : Controller S) : Controller S * list Event :=
  match i with
  | StateSample pose_msg twist_msg => state_callback pose_msg twist_msg self
  | RefPoseSample msg => ref_pose_callback msg self
  | RefTwistSample msg => ref_twist_callback msg self
  | RefTrajSample msg => ref_traj_callback msg self
  | PlatformInfoSample msg => platform_info_callback msg self
  | SetControlModeCall platform request =>
      let '(self, success, ev) := setControlModeSrvCall platform request self in
      (self, ev ++ [ServiceResponse success])
  | TimerTick now => control_timer_callback now self
  end.

Fixpoint run (inputs : list Input) (self : Controller S) : Controller S * list Event :=
  match inputs with
  | [] => (self, [])
  | i :: rest =>
      let '(self, ev) := dispatch i self in
      let '(self, ev_rest) := run rest self in
      (self, ev ++ ev_rest)
  end.

(** Whether a state sample has arrived since the last request to
    [setControlModeSrvCall], along a history of inputs; [seen] is the answer
    before the history. *)
Fixpoint state_sample_since_negotiation (seen : bool) (history : list Input) : bool :=
  match history with
  | [] => seen
  | StateSample _ _ :: rest => state_sample_since_negotiation true rest
  | SetControlModeCall _ _ :: rest => state_sample_since_negotiation false rest
  | _ :: rest => state_sample_since_negotiation seen rest
  end.

Definition is_sample (i : Input) : bool :=
  match i with
  | StateSample _ _ | RefPoseSample _ | RefTwistSample _ | RefTrajSample _ => true
  | _ => false
  end.

(** What the base class holds of a sample once its callback has run. *)
Definition cached (i : Input) (self : ControllerBase) : Prop :=
  match i with
  | StateSample pose_msg twist_msg =>
      state_adquired_ self = true /\ pose_ self = pose_msg /\ twist_ self = twist_msg
  | RefPoseSample msg => motion_reference_adquired_ self = true /\ ref_pose_ self = msg
  | RefTwistSample msg => motion_reference_adquired_ self = true /\ ref_twist_ self = msg
  | RefTrajSample msg => motion_reference_adquired_ self = true /\ ref_traj_ self = msg
  | _ => True
  end.

(** The objects the program can be in: built by the constructor and
    [initialize], then driven by the executor; between callbacks the subclass
    may set the mode lists and write the two public members. *)
Inductive reachable : Controller S -> Prop :=
| reachable_initialize (use_bypass : option bool) (s : S) :
    reachable (fst (initialize use_bypass {| base := ControllerBase_new; plugin := s |}))
| reachable_dispatch (i : Input) (self : Controller S) :
    reachable self -> reachable (fst (dispatch i self))
| reachable_setInputControlModesAvailables (modes : list uint8_t) (self : Controller S) :
    reachable self ->
    reachable {| base := setInputControlModesAvailables modes (base self);
                 plugin := plugin self |}
| reachable_setOutputControlModesAvailables (modes : list uint8_t) (self : Controller S) :
    reachable self ->
    reachable {| base := setOutputControlModesAvailables modes (base self);
                 plugin := plugin self |}
| reachable_use_bypass_ (v : bool) (self : Controller S) :
    reachable self ->
    reachable {| base := set_use_bypass_ v (base self); plugin := plugin self |}
| reachable_bypass_controller_ (v : bool) (self : Controller S) :
    reachable self ->
    reachable {| base := set_bypass_controller_ v (base self); plugin := plugin self |}.

(** ** Vocabulary of the properties *)

(** The request reached the block under [if (!bypass_controller_)] with the
    members [b], after the listing left the events [ev_list]. *)
Definition direct_path (platform : PlatformServices) (request : ControlMode)
    (self : Controller S) (b : ControllerBase) (ev_list : list Event) : Prop :=
  exists b1,
    listPlatformAvailableControlModes platform
      (set_control_mode_established_ false (base self)) = (true, b1, ev_list) /\
    (use_bypass_ b1 = false \/
     fst (tryToBypassController b1 (desired_input_mode request) 0) = false) /\
    b = set_bypass_controller_ false b1.

(** The request took the bypass: the listing succeeded, bypass is enabled and
    [tryToBypassController] returned true with [candidate]; [b] are the
    members once [bypass_controller_] is assigned. *)
Definition bypass_path (platform : PlatformServices) (request : ControlMode)
    (self : Controller S) (b : ControllerBase) (ev_list : list Event)
    (candidate : uint8_t) : Prop :=
  exists b1,
    listPlatformAvailableControlModes platform
      (set_control_mode_established_ false (base self)) = (true, b1, ev_list) /\
    use_bypass_ b1 = true /\
    tryToBypassController b1 (desired_input_mode request) 0 = (true, candidate) /\
    b = set_bypass_controller_ true b1.

(** The modes the scan of [controller_available_modes_out_] skips. *)
Definition skipped_class (mode_out : uint8_t) : bool :=
  (Z.land mode_out MATCH_MODE =? UNSET_MODE_MASK)
  || (Z.land mode_out MATCH_MODE =? HOVER_MODE_MASK).

(** The membership scan accepts when it ends in its [return true] or with
    [mode_found] set. *)
Definition membership_accepts (input_mode : uint8_t) (modes : list uint8_t) : Prop :=
  checkSuitabilityInputMode_loop input_mode modes <> ModeFound false.

(** Events that are neither a hook nor a mode-set request. *)
Definition is_quiet (e : Event) : bool :=
  match e with
  | Log _ _ | CallListControlModes => true
  | _ => false
  end.

(** A mode is established only after the platform's modes were listed. *)
Definition established_after_listing (b : ControllerBase) : Prop :=
  control_mode_established_ b = true -> platform_available_modes_in_ b <> [].

End Callbacks.

(** ** Instances for the scenarios

    A codec and a subclass to run the code on concrete inputs.  The codec
    packs the class into the high nibble, the yaw mode into bits 3-2 and the
    frame into bits 1-0.  The subclass keeps one member, the highest input
    class it configures itself for: its [setMode] accepts the input modes up
    to that class, and it computes nothing.  No general result depends on
    either. *)

#[export] Instance packed_utils : ControlModeUtils := {
  ControlMode_UNSET := 0;
  ControlMode_HOVER := 1;
  convertAS2ControlModeToUint8t m :=
    (control_mode m mod 16) * 16 + (yaw_mode m mod 4) * 4 + reference_frame m mod 4;
  convertUint8tToAS2ControlMode code :=
    {| control_mode := (code / 16) mod 16;
       yaw_mode := (code / 4) mod 4;
       reference_frame := code mod 4 |}
}.

#[export] Instance stub_plugin : ControllerPlugin Z := {
  ownInitialize highest := highest;
  updateState _ _ highest := highest;
  updateReference_pose _ highest := highest;
  updateReference_twist _ highest := highest;
  updateReference_traj _ highest := highest;
  computeOutput pose twist thrust highest := (pose, twist, thrust, highest);
  setMode mode_in _ highest := (control_mode mode_in <=? highest, highest)
}.

(** A platform that advertises [modes] and accepts every mode-set request. *)
Definition willing_platform (modes : list uint8_t) : PlatformServices :=
  {| list_control_modes := (true, modes);
     set_platform_control_mode := fun _ => (true, true) |}.

(** A platform that advertises [modes] and declines every mode-set request. *)
Definition unwilling_platform (modes : list uint8_t) : PlatformServices :=
  {| list_control_modes := (true, modes);
     set_platform_control_mode := fun _ => (true, false) |}.

(** A controller after [initialize], configured with its mode lists. *)
Definition configured (use_bypass : bool) (modes_in modes_out : list uint8_t)
    (highest : Z) : Controller Z :=
  let self := fst (initialize (Some use_bypass)
                     {| base := ControllerBase_new; plugin := highest |}) in
  {| base := setOutputControlModesAvailables modes_out
               (setInputControlModesAvailables modes_in (base self));
     plugin := plugin self |}.

Definition at_time (s : Z) : Time := {| sec := s; nanosec := 0 |}.

Definition stamped_pose (s : Z) (x y z : float) : PoseStamped :=
  {| pose_header := {| stamp := at_time s; frame_id := "earth" |};
     pose := {| position := {| point_x := x; point_y := y; point_z := z |};
                orientation := {| quat_x := 0; quat_y := 0; quat_z := 0; quat_w := 1 |} |} |}.

Definition stamped_twist (s : Z) (vx vy vz : float) : TwistStamped :=
  {| twist_header := {| stamp := at_time s; frame_id := "earth" |};
     twist := {| linear := {| vec_x := vx; vec_y := vy; vec_z := vz |};
                 angular := {| vec_x := 0; vec_y := 0; vec_z := 0 |} |} |}.

Definition flying : PlatformInfo := {| armed := true; offboard := true |}.

(** The request whose code under [packed_utils] is [code]. *)
Definition request_for (code : uint8_t) : ControlMode :=
  convertUint8tToAS2ControlMode code.

(** The scenarios. *)

(** Output modes configured as {0x21, 0x12}; the platform will advertise
    {0x12}. *)
Definition scan_scenario : Controller Z := configured false [0x21] [0x21; 0x12] 7.

(** A controller that accepts HOVER and one class-4 mode and produces that
    class-4 mode. *)
Definition hover_scenario : Controller Z := configured false [0x10; 0x40] [0x40] 7.

Definition hover_request : ControlMode :=
  {| control_mode := ControlMode_HOVER; yaw_mode := 0; reference_frame := 0 |}.

(** Bypass enabled, no mode of its own. *)
Definition bypass_scenario (highest : Z) : Controller Z :=
  configured true [] [] highest.

(** HOVER is listed with a frame bit set. *)
Definition framed_hover_scenario : Controller Z := configured false [0x11] [0x40] 7.

(** The subclass configures itself up to class 4; classes 4 and 6 are
    accepted as inputs. *)
Definition class4_scenario : Controller Z := configured false [0x40; 0x60] [0x40] 4.

Definition state_pose_1 : PoseStamped := stamped_pose 1 0 0 1.
Definition state_twist_1 : TwistStamped := stamped_twist 1 0 0 0.
Definition reference_pose_2 : PoseStamped := stamped_pose 2 1 2 3.
Definition reference_twist_3 : TwistStamped := stamped_twist 3 0.5 0 0.

(** Samples arrive, then a request for 0x55 that the platform takes as it
    is. *)
Definition bypass_history : list Input :=
  [PlatformInfoSample flying;
   StateSample state_pose_1 state_twist_1;
   RefPoseSample reference_pose_2;
   RefTwistSample reference_twist_3;
   SetControlModeCall (willing_platform [0x55]) (request_for 0x55)].

(** A request for 0x55 on the bypass first, then the samples. *)
Definition bypass_then_samples : list Input :=
  [PlatformInfoSample flying;
   SetControlModeCall (willing_platform [0x55]) (request_for 0x55);
   StateSample state_pose_1 state_twist_1;
   RefPoseSample reference_pose_2;
   RefTwistSample reference_twist_3].

(** * Properties *)

(** ** ModeMatcher *)

Lemma checkMatchWithMask_spec mode mask candidate :
  checkMatchWithMask mode candidate mask = true <-> masked_match mode mask candidate.
Proof.
  unfold checkMatchWithMask, masked_match. rewrite Z.eqb_eq. split; congruence.
Qed.

Lemma checkMatchWithMask_refl mode mask : checkMatchWithMask mode mode mask = true.
Proof. unfold checkMatchWithMask. apply Z.eqb_refl. Qed.

(** The scan stops at the first exact match: what follows it is never read. *)
Lemma findBestMatchWithMask_loop_stops mode mask before after best :
  ~ In mode before ->
  findBestMatchWithMask_loop mode mask (before ++ mode :: after) best = mode.
Proof.
  revert best. induction before as [|c before IH]; intros best Hnotin; simpl.
  - rewrite checkMatchWithMask_refl, Z.eqb_refl. reflexivity.
  - assert (c <> mode) as Hc by (intros ->; apply Hnotin; left; reflexivity).
    assert (~ In mode before) as Hrest by (intros H; apply Hnotin; right; exact H).
    apply Z.eqb_neq in Hc. rewrite Hc.
    destruct (checkMatchWithMask mode c mask); apply IH; exact Hrest.
Qed.

(** Without a masked match the local variable comes back unchanged. *)
Lemma findBestMatchWithMask_loop_no_match mode mask mode_list best :
  (forall c, In c mode_list -> ~ masked_match mode mask c) ->
  findBestMatchWithMask_loop mode mask mode_list best = best.
Proof.
  revert best. induction mode_list as [|c rest IH]; intros best Hnone; simpl.
  - reflexivity.
  - destruct (checkMatchWithMask mode c mask) eqn:Hm.
    + exfalso. apply (Hnone c); [left; reflexivity|].
      apply checkMatchWithMask_spec. exact Hm.
    + apply IH. intros c' Hin. apply Hnone. right. exact Hin.
Qed.

(** Without an exact match a masked match overwrites the local variable, and
    the last one is what is left in it. *)
Lemma findBestMatchWithMask_loop_last mode mask before c after best :
  ~ In mode (before ++ c :: after) ->
  masked_match mode mask c ->
  (forall x, In x after -> ~ masked_match mode mask x) ->
  findBestMatchWithMask_loop mode mask (before ++ c :: after) best = c.
Proof.
  revert best. induction before as [|b before IH]; intros best Hnotin Hc Hafter; simpl.
  - apply checkMatchWithMask_spec in Hc. rewrite Hc.
    assert (c <> mode) as Hne by (intros ->; apply Hnotin; left; reflexivity).
    apply Z.eqb_neq in Hne. rewrite Hne.
    apply findBestMatchWithMask_loop_no_match. exact Hafter.
  - assert (b <> mode) as Hne by (intros ->; apply Hnotin; left; reflexivity).
    apply Z.eqb_neq in Hne. rewrite Hne.
    assert (~ In mode (before ++ c :: after)) as Hrest
      by (intros H; apply Hnotin; right; exact H).
    destruct (checkMatchWithMask mode b mask); apply IH; assumption.
Qed.

(** Splitting a list at the first occurrence of an element. *)
Lemma in_split_first (x : Z) (l : list Z) :
  In x l -> exists before after, l = before ++ x :: after /\ ~ In x before.
Proof.
  induction l as [|y l IH]; intros Hin.
  - destruct Hin.
  - destruct (Z.eq_dec y x) as [->|Hne].
    + exists [], l. split; [reflexivity|]. intros [].
    + destruct Hin as [Heq|Hin]; [contradiction|].
      destruct (IH Hin) as (before & after & -> & Hnotin).
      exists (y :: before), after. split; [reflexivity|].
      intros [Heq|H]; [contradiction|]. apply Hnotin. exact H.
Qed.

(** Splitting a list at the last element that satisfies a decidable test. *)
Lemma in_split_last (f : Z -> bool) (l : list Z) :
  (exists x, In x l /\ f x = true) ->
  exists before c after,
    l = before ++ c :: after /\ f c = true /\ forall x, In x after -> f x = false.
Proof.
  induction l as [|y l IH]; intros (x & Hin & Hfx).
  - destruct Hin.
  - destruct (existsb f l) eqn:Hex.
    + apply existsb_exists in Hex.
      destruct (IH Hex) as (before & c & after & -> & Hc & Hafter).
      exists (y :: before), c, after. repeat split; assumption.
    + exists [], y, l.
      assert (forall z, In z l -> f z = false) as Hl.
      { intros z Hz. destruct (f z) eqn:Hfz; [|reflexivity].
        assert (existsb f l = true) as Ht by (apply existsb_exists; eauto).
        congruence. }
      repeat split; [|exact Hl].
      destruct Hin as [->|Hin]; [exact Hfx|]. rewrite (Hl x Hin) in Hfx. discriminate.
Qed.

(** C7.  For every mode, candidate list and mask: when the mode itself is in
    the list, [findBestMatchWithMask] returns it, and the scan stops at its
    first occurrence (whatever follows it does not change the result); when
    the mode is not in the list but some candidate matches under the mask,
    it returns the last such candidate of the list; when no candidate
    matches, it returns 0. *)
Theorem findBestMatchWithMask_policy (mode mask : uint8_t) (mode_list : list uint8_t) :
  (In mode mode_list ->
     findBestMatchWithMask mode mode_list mask = mode /\
     exists before after,
       mode_list = before ++ mode :: after /\ ~ In mode before /\
       forall after', findBestMatchWithMask mode (before ++ mode :: after') mask = mode) /\
  (~ In mode mode_list ->
   (exists c, In c mode_list /\ masked_match mode mask c) ->
     exists before c after,
       mode_list = before ++ c :: after /\ masked_match mode mask c /\
       (forall x, In x after -> ~ masked_match mode mask x) /\
       findBestMatchWithMask mode mode_list mask = c) /\
  ((forall c, In c mode_list -> ~ masked_match mode mask c) ->
     findBestMatchWithMask mode mode_list mask = 0).
Proof.
  unfold findBestMatchWithMask. repeat split.
  - destruct (in_split_first _ _ H) as (before & after & -> & Hnotin).
    apply findBestMatchWithMask_loop_stops. exact Hnotin.
  - destruct (in_split_first _ _ H) as (before & after & -> & Hnotin).
    exists before, after. repeat split; [exact Hnotin|].
    intros after'. apply findBestMatchWithMask_loop_stops. exact Hnotin.
  - intros Hnotin (x & Hin & Hx).
    destruct (in_split_last (fun c => checkMatchWithMask mode c mask) mode_list)
      as (before & c & after & -> & Hc & Hafter).
    { exists x. split; [exact Hin|]. apply checkMatchWithMask_spec. exact Hx. }
    apply checkMatchWithMask_spec in Hc.
    assert (forall y, In y after -> ~ masked_match mode mask y) as Hafter'.
    { intros y Hy Hm. apply checkMatchWithMask_spec in Hm.
      rewrite (Hafter y Hy) in Hm. discriminate. }
    exists before, c, after. repeat split; try assumption.
    apply findBestMatchWithMask_loop_last; assumption.
  - intros Hnone. apply findBestMatchWithMask_loop_no_match. exact Hnone.
Qed.

(** C7 on three lists: an exact match in the middle, masked matches only,
    no match. *)
Lemma findBestMatchWithMask_policy_witness :
  (findBestMatchWithMask 0x21 [0x20; 0x21; 0x23] MATCH_MODE = 0x21 /\
   exists before after,
     [0x20; 0x21; 0x23] = before ++ 0x21 :: after /\ ~ In 0x21 before /\
     forall after', findBestMatchWithMask 0x21 (before ++ 0x21 :: after') MATCH_MODE = 0x21) /\
  (exists before c after,
     [0x20; 0x13; 0x22; 0x30] = before ++ c :: after /\ masked_match 0x21 MATCH_MODE c /\
     (forall x, In x after -> ~ masked_match 0x21 MATCH_MODE x) /\
     findBestMatchWithMask 0x21 [0x20; 0x13; 0x22; 0x30] MATCH_MODE = c) /\
  findBestMatchWithMask 0x21 [0x30; 0x13] MATCH_MODE = 0.
Proof.
  split; [|split].
  - apply (proj1 (findBestMatchWithMask_policy 0x21 MATCH_MODE [0x20; 0x21; 0x23])).
    simpl. right. left. reflexivity.
  - apply (proj1 (proj2 (findBestMatchWithMask_policy 0x21 MATCH_MODE
                           [0x20; 0x13; 0x22; 0x30]))).
    + simpl. intros [H|[H|[H|[H|[]]]]]; discriminate H.
    + exists 0x20. split; [left; reflexivity|reflexivity].
  - apply (proj2 (proj2 (findBestMatchWithMask_policy 0x21 MATCH_MODE [0x30; 0x13]))).
    intros c [<-|[<-|[]]]; discriminate.
Defined.

(** ** Configuration: the setters store the sorted list *)

Lemma insert_ascending_perm x l : Permutation (insert_ascending x l) (x :: l).
Proof.
  induction l as [|y rest IH]; simpl.
  - apply Permutation_refl.
  - destruct (x <=? y).
    + apply Permutation_refl.
    + eapply perm_trans; [apply perm_skip; exact IH|apply perm_swap].
Qed.

Lemma insert_ascending_sorted x l :
  Sorted Z.le l -> Sorted Z.le (insert_ascending x l).
Proof.
  induction l as [|y rest IH]; intros Hsorted; simpl.
  - repeat constructor.
  - destruct (x <=? y) eqn:Hxy.
    + constructor; [exact Hsorted|]. constructor. apply Z.leb_le. exact Hxy.
    + apply Z.leb_gt in Hxy. inversion Hsorted as [|? ? Hrest Hhd]; subst.
      constructor; [apply IH; exact Hrest|].
      destruct rest as [|z rest']; simpl.
      * constructor. lia.
      * destruct (x <=? z); constructor; [lia|].
        inversion Hhd; subst. assumption.
Qed.

Lemma sort_ascending_perm l : Permutation (sort_ascending l) l.
Proof.
  induction l as [|x rest IH]; simpl.
  - apply Permutation_refl.
  - eapply perm_trans; [apply insert_ascending_perm|apply perm_skip; exact IH].
Qed.

Lemma sort_ascending_sorted l : Sorted Z.le (sort_ascending l).
Proof.
  induction l as [|x rest IH]; simpl.
  - constructor.
  - apply insert_ascending_sorted. exact IH.
Qed.

(** ** Negotiation *)

Ltac break_match :=
  match goal with
  | |- context [match ?x with _ => _ end] => destruct x eqn:?
  | H : context [match ?x with _ => _ end] |- _ => destruct x eqn:?
  end.

Ltac inv_pair :=
  repeat match goal with
         | H : (_, _) = (_, _) |- _ => inversion H; subst; clear H
         end.

Ltac in_cases :=
  repeat match goal with
         | H : In _ (_ ++ _) |- _ => apply in_app_or in H; destruct H
         | H : In _ (_ :: _) |- _ => destruct H
         | H : In _ [] |- _ => destruct H
         | H : _ = _ |- _ => discriminate H
         | Hq : (forall e, In e ?l -> is_quiet e = true), H : In _ ?l |- _ =>
             apply Hq in H; simpl in H
         end.

Section NegotiationProperties.
Context {utils : ControlModeUtils} {S : Type} {hooks : ControllerPlugin S}.

(** Listing the platform's modes writes [platform_available_modes_in_] at
    most. *)
Lemma listPlatformAvailableControlModes_frame platform (b b' : ControllerBase)
    (ok : bool) ev :
  listPlatformAvailableControlModes platform b = (ok, b', ev) ->
  b' = b \/
  (ok = true /\ platform_available_modes_in_ b = [] /\
   b' = set_platform_available_modes_in_ (snd (list_control_modes platform)) b /\
   snd (list_control_modes platform) <> []).
Proof.
  unfold listPlatformAvailableControlModes. intros H.
  destruct (platform_available_modes_in_ b) eqn:Hmodes.
  - destruct (list_control_modes platform) as [out control_modes]. simpl.
    destruct out; simpl in H; [|inv_pair; left; reflexivity].
    destruct control_modes; inv_pair; [left; reflexivity|].
    right. repeat split. discriminate.
  - inv_pair. left. reflexivity.
Qed.

(** When the listing succeeds there are modes to match against. *)
Lemma listPlatformAvailableControlModes_nonempty platform (b b' : ControllerBase) ev :
  listPlatformAvailableControlModes platform b = (true, b', ev) ->
  platform_available_modes_in_ b' <> [].
Proof.
  unfold listPlatformAvailableControlModes. intros H.
  destruct (platform_available_modes_in_ b) eqn:Hmodes.
  - destruct (list_control_modes platform) as [out control_modes].
    destruct out; simpl in H; [|discriminate].
    destruct control_modes; inv_pair. simpl. discriminate.
  - inv_pair. rewrite Hmodes. discriminate.
Qed.

(** The response and the established flag agree when the call returns. *)
Lemma setControlModeSrvCall_established platform request (self self' : Controller S)
    (success : bool) ev :
  setControlModeSrvCall platform request self = (self', success, ev) ->
  control_mode_established_ (base self') = success.
Proof.
  unfold setControlModeSrvCall, setPlatformControlMode. intros H.
  destruct (listPlatformAvailableControlModes platform
              (set_control_mode_established_ false (base self)))
    as [[listed b1] ev_list] eqn:Hlist.
  assert (control_mode_established_ b1 = false) as Hb1.
  { destruct (listPlatformAvailableControlModes_frame _ _ _ _ _ Hlist)
      as [->|(_ & _ & -> & _)]; reflexivity. }
  repeat (break_match; simpl in *; inv_pair; try discriminate); simpl;
    try reflexivity; try exact Hb1.
Qed.

(** A request that finds the platform's mode list never fetched and is
    answered an empty list reports failure with the "No available control
    modes" diagnostic; it has cleared the established flag and written
    nothing else. *)
Lemma setControlModeSrvCall_empty_listing platform request (self : Controller S) :
  platform_available_modes_in_ (base self) = [] ->
  list_control_modes platform = (true, []) ->
  setControlModeSrvCall platform request self =
    ({| base := set_control_mode_established_ false (base self);
        plugin := plugin self |},
     false,
     [Log DEBUG "LISTING AVAILABLE MODES"; CallListControlModes;
      Log ERROR "No available control modes"]).
Proof.
  intros Hnever Hempty.
  unfold setControlModeSrvCall, listPlatformAvailableControlModes. simpl.
  rewrite Hnever, Hempty. reflexivity.
Qed.

(** *** The direct path *)

Lemma tryToBypassController_false b input_mode output_mode :
  fst (tryToBypassController b input_mode output_mode) = false ->
  tryToBypassController b input_mode output_mode = (false, output_mode).
Proof.
  unfold tryToBypassController. repeat break_match; simpl; intros; congruence.
Qed.

Lemma direct_path_no_candidate platform request (self : Controller S) b ev_list :
  direct_path platform request self b ev_list ->
  fst (findSuitableOutputControlModeForPlatformInputMode b 0
         (desired_input_mode request)) = false ->
  setControlModeSrvCall platform request self =
    ({| base := b; plugin := plugin self |}, false,
     ev_list ++ [Log WARN "No suitable output control mode found"]).
Proof.
  intros (b1 & Hlist & Hbypass & ->) Hnone.
  unfold setControlModeSrvCall. rewrite Hlist. simpl.
  assert ((if use_bypass_ b1
           then tryToBypassController b1 (desired_input_mode request) 0
           else (false, 0)) = (false, 0)) as ->.
  { destruct (use_bypass_ b1); [|reflexivity].
    destruct Hbypass as [Hoff|Hfail]; [discriminate|].
    apply tryToBypassController_false. exact Hfail. }
  simpl.
  destruct (findSuitableOutputControlModeForPlatformInputMode
              (set_bypass_controller_ false b1) 0 (desired_input_mode request))
    as [found candidate].
  simpl in Hnone. subst found. reflexivity.
Qed.

Lemma direct_path_unsuitable platform request (self : Controller S) b ev_list
    output ev_check :
  direct_path platform request self b ev_list ->
  findSuitableOutputControlModeForPlatformInputMode b 0
    (desired_input_mode request) = (true, output) ->
  checkSuitabilityInputMode b (desired_input_mode request) output = (false, ev_check) ->
  setControlModeSrvCall platform request self =
    ({| base := b; plugin := plugin self |}, false,
     ev_list ++ ev_check ++
     [Log ERROR "Input control mode is not suitable for this controller"]).
Proof.
  intros (b1 & Hlist & Hbypass & ->) Hfound Hcheck.
  unfold setControlModeSrvCall. rewrite Hlist. simpl.
  assert ((if use_bypass_ b1
           then tryToBypassController b1 (desired_input_mode request) 0
           else (false, 0)) = (false, 0)) as ->.
  { destruct (use_bypass_ b1); [|reflexivity].
    destruct Hbypass as [Hoff|Hfail]; [discriminate|].
    apply tryToBypassController_false. exact Hfail. }
  simpl. rewrite Hfound. simpl. rewrite Hcheck. reflexivity.
Qed.

(** *** Output-mode selection *)

Lemma findBestMatchWithMask_present mode mode_list mask :
  In mode mode_list -> findBestMatchWithMask mode mode_list mask = mode.
Proof.
  intros Hin. destruct (in_split_first _ _ Hin) as (before & after & -> & Hnotin).
  apply findBestMatchWithMask_loop_stops. exact Hnotin.
Qed.

Lemma findSuitableOutput_loop_skips platform_modes modes_out common_mode :
  (forall x, In x modes_out -> skipped_class x = true) ->
  findSuitableOutput_loop platform_modes modes_out common_mode = common_mode.
Proof.
  revert common_mode. induction modes_out as [|m rest IH]; intros c Hskip; simpl.
  - reflexivity.
  - pose proof (Hskip m (or_introl eq_refl)) as Hm. unfold skipped_class in Hm.
    rewrite Hm. apply IH. intros x Hx. apply Hskip. right. exact Hx.
Qed.

(** The scan leaves in [common_mode] what the last mode it does not skip
    matched, whatever the modes before it matched. *)
Lemma findSuitableOutput_loop_last platform_modes before m after common_mode :
  skipped_class m = false ->
  (forall x, In x after -> skipped_class x = true) ->
  findSuitableOutput_loop platform_modes (before ++ m :: after) common_mode =
  findBestMatchWithMask m platform_modes MATCH_ALL.
Proof.
  intros Hm Hafter. revert common_mode.
  induction before as [|x before IH]; intros c; simpl.
  - unfold skipped_class in Hm. rewrite Hm.
    apply findSuitableOutput_loop_skips. exact Hafter.
  - destruct ((Z.land x MATCH_MODE =? UNSET_MODE_MASK)
              || (Z.land x MATCH_MODE =? HOVER_MODE_MASK)); apply IH.
Qed.

Lemma skipped_class_zero : skipped_class 0 = true.
Proof. reflexivity. Qed.

(** A platform that advertises 0x12 alone never lets the bypass through:
    what equals 0x12 in all eight bits is of class HOVER. *)
Lemma tryToBypassController_only_0x12 b input_mode output_mode :
  platform_available_modes_in_ b = [0x12] ->
  tryToBypassController b input_mode output_mode = (false, output_mode).
Proof.
  intros Hmodes. unfold tryToBypassController. rewrite Hmodes.
  destruct ((Z.land input_mode MATCH_MODE =? UNSET_MODE_MASK)
            || (Z.land input_mode MATCH_MODE =? HOVER_MODE_MASK)) eqn:Hclass;
    [reflexivity|].
  unfold findBestMatchWithMask. simpl.
  destruct (checkMatchWithMask input_mode 0x12 MATCH_ALL) eqn:Hmatch.
  - exfalso. apply checkMatchWithMask_spec in Hmatch. unfold masked_match in Hmatch.
    assert (Z.land input_mode MATCH_MODE = HOVER_MODE_MASK) as Hhover.
    { change MATCH_MODE with (Z.land MATCH_ALL MATCH_MODE).
      rewrite Z.land_assoc, <- Hmatch. reflexivity. }
    apply Z.eqb_eq in Hhover. rewrite Hhover, orb_true_r in Hclass. discriminate.
  - reflexivity.
Qed.

(** C1, as amended.  With the output-mode list configured as {0x21, 0x12}
    (which the setter stores sorted), a platform that advertises exactly
    {0x12}, cached or fetched by this request, and no preferred output mode,
    the negotiation selects no output mode: 0x12 is of class HOVER, which the
    scan skips, and 0x21 is not advertised.  The request reports failure with
    the "No suitable output control mode found" diagnostic, asks the platform
    for no mode and leaves [output_mode_] as it was.  In general, with no
    preferred mode, the scan does not stop at a common mode: when the last
    mode of the controller's list that is not of class UNSET or HOVER is
    advertised by the platform, that mode is selected, whatever the modes
    before it matched. *)
Theorem output_mode_scan_policy :
  (forall platform request (self : Controller S) b0,
     controller_available_modes_out_ (base self) =
       controller_available_modes_out_ (setOutputControlModesAvailables [0x21; 0x12] b0) ->
     prefered_output_mode_ (base self) = 0 ->
     platform_available_modes_in_ (base self) = [0x12] \/
     (platform_available_modes_in_ (base self) = [] /\
      list_control_modes platform = (true, [0x12])) ->
     exists b ev_list,
       setControlModeSrvCall platform request self =
         ({| base := b; plugin := plugin self |}, false,
          ev_list ++ [Log WARN "No suitable output control mode found"]) /\
       (forall m, ~ In (CallSetPlatformControlMode m) ev_list) /\
       control_mode_established_ b = false /\
       output_mode_ b = output_mode_ (base self)) /\
  (forall (b : ControllerBase) before m after output_mode input_mode,
     prefered_output_mode_ b = 0 ->
     controller_available_modes_out_ b = before ++ m :: after ->
     skipped_class m = false ->
     (forall x, In x after -> skipped_class x = true) ->
     In m (platform_available_modes_in_ b) ->
     findSuitableOutputControlModeForPlatformInputMode b output_mode input_mode
       = (true, m)).
Proof.
  split.
  - intros platform request self b0 Hout Hpref Hplatform. simpl in Hout.
    assert (exists b1 ev_list,
              listPlatformAvailableControlModes platform
                (set_control_mode_established_ false (base self)) = (true, b1, ev_list) /\
              platform_available_modes_in_ b1 = [0x12] /\
              controller_available_modes_out_ b1 = [0x12; 0x21] /\
              prefered_output_mode_ b1 = 0 /\
              control_mode_established_ b1 = false /\
              output_mode_ b1 = output_mode_ (base self) /\
              forall m, ~ In (CallSetPlatformControlMode m) ev_list)
      as (b1 & ev_list & Hlist & Hmodes & Hout1 & Hpref1 & Hest & Hom & Hev).
    { unfold listPlatformAvailableControlModes. simpl.
      destruct Hplatform as [Hcached|[Hnever Hfetch]].
      - rewrite Hcached. eexists _, _. split; [reflexivity|]. simpl.
        repeat split; try assumption. intros m [].
      - rewrite Hnever, Hfetch. simpl. eexists _, _. split; [reflexivity|]. simpl.
        repeat split; try assumption.
        intros m [H|[H|[H|[]]]]; discriminate H. }
    exists (set_bypass_controller_ false b1), ev_list.
    split; [|repeat split; assumption].
    apply direct_path_no_candidate.
    + exists b1. repeat split; [exact Hlist|].
      right. rewrite (tryToBypassController_only_0x12 _ _ _ Hmodes). reflexivity.
    + unfold findSuitableOutputControlModeForPlatformInputMode, scanOutputModes.
      simpl. rewrite Hpref1, Hmodes, Hout1. reflexivity.
  - intros b before m after output_mode input_mode Hpref Hout Hm Hafter Hin.
    unfold findSuitableOutputControlModeForPlatformInputMode, scanOutputModes.
    rewrite Hpref, Hout. simpl.
    rewrite (findSuitableOutput_loop_last _ _ _ _ _ Hm Hafter).
    rewrite (findBestMatchWithMask_present _ _ _ Hin).
    destruct (m =? 0) eqn:Hzero; [|reflexivity].
    apply Z.eqb_eq in Hzero. subst m. rewrite skipped_class_zero in Hm. discriminate.
Qed.

(** *** Suitability of the input mode *)

Lemma checkSuitabilityInputMode_loop_returned input_mode modes :
  checkSuitabilityInputMode_loop input_mode modes = ReturnedTrue ->
  Z.land input_mode MATCH_MODE = HOVER_MODE_MASK /\ In HOVER_MODE_MASK modes.
Proof.
  induction modes as [|mode rest IH]; simpl; [discriminate|].
  destruct (Z.land input_mode MATCH_MODE =? HOVER_MODE_MASK) eqn:Hclass; simpl.
  - apply Z.eqb_eq in Hclass.
    destruct (Z.land input_mode MATCH_MODE =? mode) eqn:Hmode.
    + apply Z.eqb_eq in Hmode. intros _. split; [exact Hclass|]. left. congruence.
    + destruct (mode =? input_mode); [discriminate|].
      intros H. destruct (IH H) as [_ Hin]. split; [exact Hclass|]. right. exact Hin.
  - destruct (mode =? input_mode); [discriminate|].
    intros H. destruct (IH H) as [Hc _]. apply Z.eqb_neq in Hclass. contradiction.
Qed.

Lemma checkSuitabilityInputMode_loop_found input_mode modes :
  checkSuitabilityInputMode_loop input_mode modes = ModeFound true ->
  In input_mode modes.
Proof.
  induction modes as [|mode rest IH]; simpl; [discriminate|].
  destruct ((Z.land input_mode MATCH_MODE =? HOVER_MODE_MASK)
            && (Z.land input_mode MATCH_MODE =? mode)); [discriminate|].
  destruct (mode =? input_mode) eqn:Hmode.
  - apply Z.eqb_eq in Hmode. intros _. left. exact Hmode.
  - intros H. right. apply IH. exact H.
Qed.

Lemma checkSuitabilityInputMode_loop_not_found input_mode modes :
  checkSuitabilityInputMode_loop input_mode modes = ModeFound false ->
  ~ In input_mode modes /\
  ~ (Z.land input_mode MATCH_MODE = HOVER_MODE_MASK /\ In HOVER_MODE_MASK modes).
Proof.
  induction modes as [|mode rest IH]; simpl.
  - intros _. split; [intros []|intros [_ []]].
  - destruct (Z.land input_mode MATCH_MODE =? HOVER_MODE_MASK) eqn:Hclass; simpl.
    + apply Z.eqb_eq in Hclass.
      destruct (Z.land input_mode MATCH_MODE =? mode) eqn:Hmode; [discriminate|].
      apply Z.eqb_neq in Hmode.
      destruct (mode =? input_mode) eqn:Hsame; [discriminate|].
      apply Z.eqb_neq in Hsame.
      intros H. destruct (IH H) as [Hnotin Hnohover]. split.
      * intros [Heq|Hin]; [contradiction|]. apply Hnotin. exact Hin.
      * intros [_ [Heq|Hin]]; [congruence|]. apply Hnohover. split; assumption.
    + apply Z.eqb_neq in Hclass.
      destruct (mode =? input_mode) eqn:Hsame; [discriminate|].
      apply Z.eqb_neq in Hsame.
      intros H. destruct (IH H) as [Hnotin _]. split.
      * intros [Heq|Hin]; [contradiction|]. apply Hnotin. exact Hin.
      * intros [Hc _]. contradiction.
Qed.

(** The request of a HOVER mode: its code is [HOVER_MODE_MASK] itself, and
    the scan returns at the first [HOVER_MODE_MASK] of the list. *)
Lemma checkSuitabilityInputMode_loop_hover modes :
  In HOVER_MODE_MASK modes ->
  checkSuitabilityInputMode_loop HOVER_MODE_MASK modes = ReturnedTrue.
Proof.
  induction modes as [|mode rest IH]; [intros []|].
  intros Hin. cbn [checkSuitabilityInputMode_loop].
  change (Z.land HOVER_MODE_MASK MATCH_MODE) with HOVER_MODE_MASK.
  rewrite Z.eqb_refl. cbn [andb]. rewrite (Z.eqb_sym mode HOVER_MODE_MASK).
  destruct (HOVER_MODE_MASK =? mode) eqn:Hmode; [reflexivity|].
  apply Z.eqb_neq in Hmode. destruct Hin as [Heq|Hin]; [congruence|].
  apply IH. exact Hin.
Qed.

(** C6, as amended.  The membership scan accepts a desired input mode if
    and only if either its class nibble is HOVER and the controller's
    accepted-input list holds the code [HOVER_MODE_MASK] itself (the masked
    input is compared with the listed mode as it is), or it is
    byte-identical to some mode of the list.  When the scan rejects,
    [checkSuitabilityInputMode] returns false for every output mode, and a
    request on the direct path reports failure with the "Input control mode
    is not suitable for this controller" diagnostic, nothing of the subclass
    touched. *)
Theorem input_membership_check (b : ControllerBase) (input_mode : uint8_t) :
  (membership_accepts input_mode (controller_available_modes_in_ b) <->
   (Z.land input_mode MATCH_MODE = HOVER_MODE_MASK /\
    In HOVER_MODE_MASK (controller_available_modes_in_ b)) \/
   In input_mode (controller_available_modes_in_ b)) /\
  (~ membership_accepts input_mode (controller_available_modes_in_ b) ->
   (forall output_mode,
      fst (checkSuitabilityInputMode b input_mode output_mode) = false) /\
   (forall platform request (self : Controller S) ev_list output_mode,
      direct_path platform request self b ev_list ->
      desired_input_mode request = input_mode ->
      findSuitableOutputControlModeForPlatformInputMode b 0 input_mode
        = (true, output_mode) ->
      exists ev_check,
        setControlModeSrvCall platform request self =
          ({| base := b; plugin := plugin self |}, false,
           ev_list ++ ev_check ++
           [Log ERROR "Input control mode is not suitable for this controller"]))).
Proof.
  unfold membership_accepts.
  assert (forall output_mode,
             checkSuitabilityInputMode_loop input_mode
               (controller_available_modes_in_ b) = ModeFound false ->
             fst (checkSuitabilityInputMode b input_mode output_mode) = false) as Hreject.
  { intros output_mode Hscan. unfold checkSuitabilityInputMode. rewrite Hscan.
    destruct (lower_level_than_output input_mode output_mode); reflexivity. }
  split; [split|].
  - intros Haccept.
    destruct (checkSuitabilityInputMode_loop input_mode
                (controller_available_modes_in_ b)) as [|[|]] eqn:Hscan.
    + left. apply checkSuitabilityInputMode_loop_returned. exact Hscan.
    + right. apply checkSuitabilityInputMode_loop_found. exact Hscan.
    + contradiction.
  - intros Hmember Hscan.
    destruct (checkSuitabilityInputMode_loop_not_found _ _ Hscan) as [Hnotin Hnohover].
    destruct Hmember as [Hhover|Hin]; contradiction.
  - intros Hno.
    assert (checkSuitabilityInputMode_loop input_mode
              (controller_available_modes_in_ b) = ModeFound false) as Hscan.
    { destruct (checkSuitabilityInputMode_loop input_mode
                  (controller_available_modes_in_ b)) as [|[|]];
        try reflexivity; exfalso; apply Hno; discriminate. }
    split; [intros output_mode; apply Hreject; exact Hscan|].
    intros platform request self ev_list output_mode Hpath Hdesired Hfound.
    subst input_mode.
    destruct (checkSuitabilityInputMode b (desired_input_mode request) output_mode)
      as [ok ev_check] eqn:Hcheck.
    exists ev_check. apply (direct_path_unsuitable _ _ _ _ _ output_mode); try assumption.
    pose proof (Hreject output_mode Hscan) as Hfst. rewrite Hcheck in Hfst.
    simpl in Hfst. subst ok. exact Hcheck.
Qed.

(** *** The level check *)

Lemma land_disjoint_masks x a b :
  Z.land a b = 0 -> Z.land x (Z.lor a b) = Z.land x a + Z.land x b.
Proof.
  intros Hdisjoint.
  assert (Z.land (Z.land x a) (Z.land x b) = 0) as Hzero.
  { apply Z.bits_inj'. intros n _.
    apply (f_equal (fun z => Z.testbit z n)) in Hdisjoint.
    rewrite Z.land_spec, Z.bits_0 in Hdisjoint.
    rewrite !Z.land_spec, Z.bits_0.
    destruct (Z.testbit x n), (Z.testbit a n), (Z.testbit b n);
      simpl in *; congruence. }
  rewrite Z.land_lor_distr_r, (Z.add_nocarry_lxor _ _ Hzero).
  symmetry. apply Z.lxor_lor. exact Hzero.
Qed.

Lemma land_split_0xf0 x : Z.land x 0xf0 = Z.land x 0x70 + Z.land x 0x80.
Proof. apply (land_disjoint_masks x 0x70 0x80). reflexivity. Qed.

Lemma land_split_0x78 x : Z.land x 0x78 = Z.land x 0x70 + Z.land x 0x08.
Proof. apply (land_disjoint_masks x 0x70 0x08). reflexivity. Qed.

Lemma land_mask_nonneg x mask : 0 <= mask -> 0 <= Z.land x mask.
Proof. intros H. apply Z.land_nonneg. right. exact H. Qed.

(** C2, as amended.  For an input/output pair handed to
    [checkSuitabilityInputMode]: when the membership scan ends in its HOVER
    return (as it does for the code of a HOVER request whenever the
    controller's input list holds [HOVER_MODE_MASK]) the pair is accepted
    with no level check at all.  Otherwise, when bit 7 of the output mode is
    clear, an input class nibble strictly below the output class nibble
    rejects the pair with the "lower level" diagnostic, and the request
    reports failure; and when bit 3 of the output mode is clear, the level
    check accepts whenever the input class nibble is greater than or equal
    to the output class nibble, leaving the verdict to the membership
    scan. *)
Theorem level_check_policy (b : ControllerBase) (input_mode output_mode : uint8_t) :
  (checkSuitabilityInputMode_loop input_mode (controller_available_modes_in_ b)
     = ReturnedTrue ->
   checkSuitabilityInputMode b input_mode output_mode = (true, [])) /\
  (In HOVER_MODE_MASK (controller_available_modes_in_ b) ->
   checkSuitabilityInputMode b HOVER_MODE_MASK output_mode = (true, [])) /\
  (checkSuitabilityInputMode_loop input_mode (controller_available_modes_in_ b)
     <> ReturnedTrue ->
   Z.land output_mode 0x80 = 0 ->
   Z.land input_mode MATCH_MODE < Z.land output_mode MATCH_MODE ->
   checkSuitabilityInputMode b input_mode output_mode =
     (false, [Log ERROR "Input control mode has lower level than output control mode"]) /\
   forall platform request (self : Controller S) ev_list,
     direct_path platform request self b ev_list ->
     desired_input_mode request = input_mode ->
     findSuitableOutputControlModeForPlatformInputMode b 0 input_mode
       = (true, output_mode) ->
     setControlModeSrvCall platform request self =
       ({| base := b; plugin := plugin self |}, false,
        ev_list ++
        [Log ERROR "Input control mode has lower level than output control mode"] ++
        [Log ERROR "Input control mode is not suitable for this controller"])) /\
  (Z.land output_mode 0x08 = 0 ->
   Z.land output_mode MATCH_MODE <= Z.land input_mode MATCH_MODE ->
   lower_level_than_output input_mode output_mode = false /\
   forall mode_found,
     checkSuitabilityInputMode_loop input_mode (controller_available_modes_in_ b)
       = ModeFound mode_found ->
     checkSuitabilityInputMode b input_mode output_mode = (mode_found, [])).
Proof.
  assert (Z.land output_mode 0x80 = 0 ->
          Z.land input_mode MATCH_MODE < Z.land output_mode MATCH_MODE ->
          lower_level_than_output input_mode output_mode = true) as Hlow.
  { unfold lower_level_than_output, MATCH_MODE. intros Hbit7 Hlt. apply Z.ltb_lt.
    rewrite (land_split_0xf0 output_mode) in Hlt. rewrite land_split_0x78.
    pose proof (land_mask_nonneg output_mode 0x08). lia. }
  assert (Z.land output_mode 0x08 = 0 ->
          Z.land output_mode MATCH_MODE <= Z.land input_mode MATCH_MODE ->
          lower_level_than_output input_mode output_mode = false) as Hhigh.
  { unfold lower_level_than_output, MATCH_MODE. intros Hbit3 Hle. apply Z.ltb_ge.
    rewrite (land_split_0xf0 output_mode) in Hle. rewrite land_split_0x78.
    pose proof (land_mask_nonneg output_mode 0x80). lia. }
  split; [|split; [|split]].
  - intros Hscan. unfold checkSuitabilityInputMode. rewrite Hscan. reflexivity.
  - intros Hin. unfold checkSuitabilityInputMode.
    rewrite (checkSuitabilityInputMode_loop_hover _ Hin). reflexivity.
  - intros Hscan Hbit7 Hlt.
    assert (checkSuitabilityInputMode b input_mode output_mode =
              (false,
               [Log ERROR "Input control mode has lower level than output control mode"]))
      as Hcheck.
    { unfold checkSuitabilityInputMode.
      destruct (checkSuitabilityInputMode_loop input_mode
                  (controller_available_modes_in_ b)); [contradiction|].
      rewrite (Hlow Hbit7 Hlt). reflexivity. }
    split; [exact Hcheck|].
    intros platform request self ev_list Hpath Hdesired Hfound. subst input_mode.
    apply (direct_path_unsuitable _ _ _ _ _ output_mode); assumption.
  - intros Hbit3 Hle. split; [exact (Hhigh Hbit3 Hle)|].
    intros mode_found Hscan. unfold checkSuitabilityInputMode.
    rewrite Hscan, (Hhigh Hbit3 Hle). reflexivity.
Qed.

(** *** Reaching the subclass *)

Lemma listPlatformAvailableControlModes_quiet platform b ok b' ev :
  listPlatformAvailableControlModes platform b = (ok, b', ev) ->
  forall e, In e ev -> is_quiet e = true.
Proof.
  unfold listPlatformAvailableControlModes. intros H e Hin.
  repeat (break_match; inv_pair; try discriminate); simpl in Hin;
    repeat match goal with
           | H : _ \/ _ |- _ => destruct H
           | H : False |- _ => destruct H
           | H : In _ (map _ _) |- _ =>
               apply in_map_iff in H; destruct H as (? & ? & ?)
           end; subst; reflexivity.
Qed.

Lemma checkSuitabilityInputMode_quiet b input_mode output_mode ok ev :
  checkSuitabilityInputMode b input_mode output_mode = (ok, ev) ->
  forall e, In e ev -> is_quiet e = true.
Proof.
  unfold checkSuitabilityInputMode. intros H e Hin.
  repeat (break_match; inv_pair; try discriminate); simpl in Hin;
    repeat match goal with
           | H : _ \/ _ |- _ => destruct H
           | H : False |- _ => destruct H
           end; subst; reflexivity.
Qed.

(** C9.  When a negotiation reaches the subclass's [setMode] (which it does
    only once the platform has accepted the mode-set request) and [setMode]
    returns false, the established flag is false, while [input_mode_] (what
    [getMode] returns) already holds the mode of this request and
    [output_mode_] the mode this request asked of the platform: the pair of
    the earlier negotiation is gone. *)
Theorem refused_setMode_keeps_new_modes platform request
    (self self' : Controller S) ev mode_in mode_out :
  setControlModeSrvCall platform request self = (self', false, ev) ->
  In (HookSetMode mode_in mode_out) ev ->
  fst (setMode mode_in mode_out (plugin self)) = false /\
  control_mode_established_ (base self') = false /\
  getMode (base self') = request /\
  In (CallSetPlatformControlMode (output_mode_ (base self'))) ev /\
  set_platform_control_mode platform (output_mode_ (base self')) = (true, true).
Proof.
  unfold setControlModeSrvCall, setPlatformControlMode, getMode. intros Hcall Hhook.
  destruct (listPlatformAvailableControlModes platform
              (set_control_mode_established_ false (base self)))
    as [[listed b1] ev_list] eqn:Hlist.
  pose proof (listPlatformAvailableControlModes_quiet _ _ _ _ _ Hlist) as Hquiet.
  destruct listed; simpl in Hcall; [|inv_pair; in_cases].
  destruct (if use_bypass_ b1
            then tryToBypassController b1 (desired_input_mode request) 0
            else (false, 0)) as [bypass candidate0] eqn:Hbypass.
  destruct bypass; simpl in Hcall.
  - destruct (set_platform_control_mode platform
                (convertUint8tToAS2ControlMode candidate0)) as [out ok] eqn:Hset.
    destruct out, ok; simpl in Hcall; try (inv_pair; in_cases; fail).
    destruct (setMode (convertUint8tToAS2ControlMode UNSET_MODE_MASK)
                (convertUint8tToAS2ControlMode UNSET_MODE_MASK) (plugin self))
      as [success s] eqn:Hmode.
    inv_pair. simpl. in_cases.
    match goal with H : HookSetMode _ _ = HookSetMode _ _ |- _ => inversion H; subst end.
    rewrite Hmode. repeat split; try assumption.
    rewrite !in_app_iff. simpl. auto 10.
  - destruct (findSuitableOutputControlModeForPlatformInputMode
                (set_bypass_controller_ false b1) candidate0
                (desired_input_mode request)) as [found candidate] eqn:Hfound.
    destruct found; simpl in Hcall; [|inv_pair; in_cases].
    destruct (checkSuitabilityInputMode (set_bypass_controller_ false b1)
                (desired_input_mode request) candidate) as [suitable ev_check] eqn:Hcheck.
    pose proof (checkSuitabilityInputMode_quiet _ _ _ _ _ Hcheck) as Hquiet'.
    destruct suitable; simpl in Hcall; [|inv_pair; in_cases].
    destruct (set_platform_control_mode platform
                (convertUint8tToAS2ControlMode candidate)) as [out ok] eqn:Hset.
    destruct out, ok; simpl in Hcall; try (inv_pair; in_cases; fail).
    destruct (setMode request (convertUint8tToAS2ControlMode candidate) (plugin self))
      as [success s] eqn:Hmode.
    inv_pair. simpl in *. in_cases.
    match goal with H : HookSetMode _ _ = HookSetMode _ _ |- _ => inversion H; subst end.
    rewrite Hmode. repeat split; try assumption.
    rewrite !in_app_iff. simpl. auto 10.
Qed.

(** *** The bypass path *)

(** What the bypass path returns, in its three endings. *)
Lemma bypass_path_result platform request (self : Controller S) b ev_list candidate :
  bypass_path platform request self b ev_list candidate ->
  let mode_to_request := convertUint8tToAS2ControlMode candidate in
  let unset_mode := convertUint8tToAS2ControlMode UNSET_MODE_MASK in
  setControlModeSrvCall platform request self =
    if fst (setPlatformControlMode platform mode_to_request) then
      let b' := set_output_mode_ mode_to_request (set_input_mode_ request b) in
      ({| base := set_control_mode_established_
                    (fst (setMode unset_mode unset_mode (plugin self))) b';
          plugin := snd (setMode unset_mode unset_mode (plugin self)) |},
       fst (setMode unset_mode unset_mode (plugin self)),
       ev_list ++ [] ++ [CallSetPlatformControlMode mode_to_request] ++
       [Log INFO "Bypassing controller:"; Log INFO "input_mode:[%s]";
        Log INFO "output_mode:[%s]"; PrintControlMode mode_to_request;
        HookSetMode unset_mode unset_mode])
    else
      ({| base := b; plugin := plugin self |}, false,
       ev_list ++ [] ++ [CallSetPlatformControlMode mode_to_request] ++
       [Log ERROR "Failed to set platform control mode"]).
Proof.
  intros (b1 & Hlist & Huse & Htry & ->). cbv zeta.
  unfold setControlModeSrvCall, setPlatformControlMode.
  rewrite Hlist. simpl. rewrite Huse, Htry. simpl.
  destruct (set_platform_control_mode platform (convertUint8tToAS2ControlMode candidate))
    as [out ok].
  destruct (out && ok); simpl; [|reflexivity].
  destruct (setMode (convertUint8tToAS2ControlMode UNSET_MODE_MASK)
              (convertUint8tToAS2ControlMode UNSET_MODE_MASK) (plugin self));
    reflexivity.
Qed.

Lemma bypass_path_members platform request (self : Controller S) b ev_list candidate :
  bypass_path platform request self b ev_list candidate ->
  bypass_controller_ b = true /\ control_mode_established_ b = false /\
  state_adquired_ b = state_adquired_ (base self) /\
  motion_reference_adquired_ b = motion_reference_adquired_ (base self).
Proof.
  intros (b1 & Hlist & _ & _ & ->).
  destruct (listPlatformAvailableControlModes_frame _ _ _ _ _ Hlist)
    as [->|(_ & _ & -> & _)]; repeat split.
Qed.

(** *** Samples while the bypass flag is set *)

Lemma run_app (l1 l2 : list Input) (self : Controller S) :
  run (l1 ++ l2) self =
  let '(self1, ev1) := run l1 self in
  let '(self2, ev2) := run l2 self1 in
  (self2, ev1 ++ ev2).
Proof.
  revert self. induction l1 as [|i l1 IH]; intros self; simpl.
  - destruct (run l2 self). reflexivity.
  - destruct (dispatch i self) as [self1 ev1]. rewrite IH.
    destruct (run l1 self1) as [self2 ev2]. destruct (run l2 self2).
    rewrite app_assoc. reflexivity.
Qed.

Lemma sample_while_bypassing (i : Input) (self self' : Controller S) ev :
  bypass_controller_ (base self) = true ->
  is_sample i = true ->
  dispatch i self = (self', ev) ->
  ev = [] /\ plugin self' = plugin self /\ cached i (base self') /\
  bypass_controller_ (base self') = true /\
  control_mode_established_ (base self') = control_mode_established_ (base self).
Proof.
  intros Hbypass Hsample Hstep.
  destruct i; try discriminate Hsample; simpl in Hstep;
    unfold state_callback, ref_pose_callback, ref_twist_callback, ref_traj_callback
      in Hstep;
    simpl in Hstep; rewrite Hbypass in Hstep; simpl in Hstep; inv_pair; simpl;
    repeat split; assumption.
Qed.

Lemma samples_while_bypassing (samples : list Input) (self self' : Controller S) ev :
  bypass_controller_ (base self) = true ->
  forallb is_sample samples = true ->
  run samples self = (self', ev) ->
  ev = [] /\ plugin self' = plugin self /\
  bypass_controller_ (base self') = true /\
  control_mode_established_ (base self') = control_mode_established_ (base self).
Proof.
  revert self. induction samples as [|i rest IH]; intros self Hbypass Hall Hrun; simpl in *.
  - inv_pair. repeat split; assumption.
  - apply andb_prop in Hall. destruct Hall as [Hi Hrest].
    destruct (dispatch i self) as [self1 ev1] eqn:Hstep.
    destruct (run rest self1) as [self2 ev2] eqn:Hrun'. inv_pair.
    destruct (sample_while_bypassing _ _ _ _ Hbypass Hi Hstep)
      as (-> & Hp & _ & Hb & He).
    destruct (IH _ Hb Hrest Hrun') as (-> & Hp' & Hb' & He').
    repeat split; try assumption; congruence.
Qed.

(** C10.  When a request takes the bypass and then reports failure, the
    platform declined the mode-set request or the subclass's [setMode]
    returned false; either way [bypass_controller_] stays true while the
    established flag is false.  From then on every state or reference
    sample is stored in the base class (with its acquired flag set) but
    reaches no hook of the subclass, whose members stay as they were. *)
Theorem failed_bypass_keeps_flag platform request (self self' : Controller S)
    b ev_list candidate ev :
  bypass_path platform request self b ev_list candidate ->
  setControlModeSrvCall platform request self = (self', false, ev) ->
  (fst (setPlatformControlMode platform (convertUint8tToAS2ControlMode candidate))
     = false \/
   fst (setMode (convertUint8tToAS2ControlMode UNSET_MODE_MASK)
          (convertUint8tToAS2ControlMode UNSET_MODE_MASK) (plugin self)) = false) /\
  bypass_controller_ (base self') = true /\
  control_mode_established_ (base self') = false /\
  forall samples last self'' ev',
    forallb is_sample (samples ++ [last]) = true ->
    run (samples ++ [last]) self' = (self'', ev') ->
    ev' = [] /\ plugin self'' = plugin self' /\ cached last (base self'') /\
    bypass_controller_ (base self'') = true /\
    control_mode_established_ (base self'') = false.
Proof.
  intros Hpath Hcall.
  pose proof (bypass_path_result _ _ _ _ _ _ Hpath) as Hresult. cbv zeta in Hresult.
  destruct (bypass_path_members _ _ _ _ _ _ Hpath) as (Hb & He & _ & _).
  rewrite Hcall in Hresult.
  assert ((fst (setPlatformControlMode platform (convertUint8tToAS2ControlMode candidate))
             = false \/
           fst (setMode (convertUint8tToAS2ControlMode UNSET_MODE_MASK)
                  (convertUint8tToAS2ControlMode UNSET_MODE_MASK) (plugin self)) = false) /\
          bypass_controller_ (base self') = true /\
          control_mode_established_ (base self') = false) as (Hwhy & Hb' & He').
  { destruct (fst (setPlatformControlMode platform
                     (convertUint8tToAS2ControlMode candidate))).
    - injection Hresult as Hself Hsuccess Hev. subst self'. simpl.
      rewrite <- Hsuccess. repeat split; [right; reflexivity|exact Hb].
    - injection Hresult as Hself Hev. subst self'. simpl.
      repeat split; [left; reflexivity|exact Hb|exact He]. }
  split; [exact Hwhy|]. split; [exact Hb'|]. split; [exact He'|].
  intros samples last self'' ev' Hall Hrun.
  rewrite forallb_app in Hall. apply andb_prop in Hall. destruct Hall as [Hall Hlast].
  simpl in Hlast. rewrite andb_true_r in Hlast.
  rewrite run_app in Hrun.
  destruct (run samples self') as [self1 ev1] eqn:Hrun1. simpl in Hrun.
  destruct (dispatch last self1) as [self2 ev2] eqn:Hstep. inv_pair.
  destruct (samples_while_bypassing _ _ _ _ Hb' Hall Hrun1) as (-> & Hp1 & Hb1 & He1).
  destruct (sample_while_bypassing _ _ _ _ Hb1 Hlast Hstep) as (-> & Hp2 & Hc & Hb2 & He2).
  repeat split; try assumption; congruence.
Qed.

(** X20.  Both endings of a request that reaches [setMode] off the bypass clear the
    two acquired flags. *)
Lemma direct_setMode_clears_acquired platform request (self self' : Controller S)
    success ev mode_in mode_out :
  setControlModeSrvCall platform request self = (self', success, ev) ->
  In (HookSetMode mode_in mode_out) ev ->
  bypass_controller_ (base self') = false ->
  state_adquired_ (base self') = false /\
  motion_reference_adquired_ (base self') = false.
Proof.
  unfold setControlModeSrvCall, setPlatformControlMode. intros Hcall Hhook Hdirect.
  destruct (listPlatformAvailableControlModes platform
              (set_control_mode_established_ false (base self)))
    as [[listed b1] ev_list] eqn:Hlist.
  pose proof (listPlatformAvailableControlModes_quiet _ _ _ _ _ Hlist) as Hquiet.
  destruct listed; simpl in Hcall; [|inv_pair; in_cases].
  destruct (if use_bypass_ b1
            then tryToBypassController b1 (desired_input_mode request) 0
            else (false, 0)) as [bypass candidate0] eqn:Hbypass.
  destruct bypass; simpl in Hcall.
  - destruct (set_platform_control_mode platform
                (convertUint8tToAS2ControlMode candidate0)) as [out ok] eqn:Hset.
    destruct out, ok; simpl in Hcall; try (inv_pair; in_cases; fail).
    destruct (setMode (convertUint8tToAS2ControlMode UNSET_MODE_MASK)
                (convertUint8tToAS2ControlMode UNSET_MODE_MASK) (plugin self))
      as [ok s] eqn:Hmode.
    inv_pair. simpl in Hdirect. discriminate.
  - destruct (findSuitableOutputControlModeForPlatformInputMode
                (set_bypass_controller_ false b1) candidate0
                (desired_input_mode request)) as [found candidate] eqn:Hfound.
    destruct found; simpl in Hcall; [|inv_pair; in_cases].
    destruct (checkSuitabilityInputMode (set_bypass_controller_ false b1)
                (desired_input_mode request) candidate) as [suitable ev_check] eqn:Hcheck.
    pose proof (checkSuitabilityInputMode_quiet _ _ _ _ _ Hcheck) as Hquiet'.
    destruct suitable; simpl in Hcall; [|inv_pair; in_cases].
    destruct (set_platform_control_mode platform
                (convertUint8tToAS2ControlMode candidate)) as [out ok] eqn:Hset.
    destruct out, ok; simpl in Hcall; try (inv_pair; in_cases; fail).
    destruct (setMode request (convertUint8tToAS2ControlMode candidate) (plugin self))
      as [ok s] eqn:Hmode.
    inv_pair. split; reflexivity.
Qed.

(** X21.  A request that succeeds on the bypass returns before the two acquired
    flags are cleared: they keep the values they had before the request. *)
Lemma bypass_success_keeps_acquired platform request (self self' : Controller S)
    b ev_list candidate ev :
  bypass_path platform request self b ev_list candidate ->
  setControlModeSrvCall platform request self = (self', true, ev) ->
  bypass_controller_ (base self') = true /\
  control_mode_established_ (base self') = true /\
  state_adquired_ (base self') = state_adquired_ (base self) /\
  motion_reference_adquired_ (base self') = motion_reference_adquired_ (base self).
Proof.
  intros Hpath Hcall.
  pose proof (bypass_path_result _ _ _ _ _ _ Hpath) as Hresult. cbv zeta in Hresult.
  destruct (bypass_path_members _ _ _ _ _ _ Hpath) as (Hb & He & Hs & Hm).
  rewrite Hcall in Hresult.
  destruct (fst (setPlatformControlMode platform
                   (convertUint8tToAS2ControlMode candidate))); [|discriminate].
  injection Hresult as Hself Hsuccess Hev. subst self'. simpl.
  rewrite <- Hsuccess. repeat split; assumption.
Qed.

(** ** The control loop *)

(** The gate: a tick that publishes or computes found the platform armed and
    in offboard mode, a mode established and [state_adquired_] set. *)
Lemma control_timer_callback_gate now (self self' : Controller S) ev :
  control_timer_callback now self = (self', ev) ->
  existsb is_action ev = true ->
  armed (platform_info_ (base self)) = true /\
  offboard (platform_info_ (base self)) = true /\
  control_mode_established_ (base self) = true /\
  state_adquired_ (base self) = true.
Proof.
  unfold control_timer_callback. intros Hcall Hacts.
  destruct (offboard (platform_info_ (base self)));
    destruct (armed (platform_info_ (base self)));
    destruct (control_mode_established_ (base self));
    destruct (state_adquired_ (base self));
    simpl in Hcall; inv_pair; try discriminate Hacts.
  repeat split.
Qed.

(** C5, as amended.  On a tick that finds the platform armed and in offboard
    mode, a mode established and a state sample acquired, with the bypass
    active and the reference-acquired flag set, the control loop publishes
    the cached reference pose and the cached reference twist exactly as the
    reference callbacks stored them, header and timestamp included: the
    clock is not read.  The subclass's compute hook is not invoked and the
    object is left as it was. *)
Theorem bypass_tick_republishes now (self : Controller S) :
  bypass_controller_ (base self) = true ->
  armed (platform_info_ (base self)) = true ->
  offboard (platform_info_ (base self)) = true ->
  control_mode_established_ (base self) = true ->
  state_adquired_ (base self) = true ->
  (motion_reference_adquired_ (base self) = true ->
   control_timer_callback now self =
     (self, [PublishPose (ref_pose_ (base self));
             PublishTwist (ref_twist_ (base self))])) /\
  (forall ref_pose ref_twist,
     snd (run [RefPoseSample ref_pose; RefTwistSample ref_twist; TimerTick now] self) =
       [PublishPose ref_pose; PublishTwist ref_twist]).
Proof.
  intros Hbypass Harmed Hoffboard Hest Hstate. split.
  - intros Href. unfold control_timer_callback, sendCommand.
    rewrite Harmed, Hoffboard, Hest, Hstate, Hbypass, Href. reflexivity.
  - intros ref_pose ref_twist. simpl.
    unfold ref_pose_callback, ref_twist_callback, control_timer_callback, sendCommand.
    simpl. rewrite Hbypass. simpl. rewrite Hbypass. simpl.
    rewrite Harmed, Hoffboard, Hest, Hstate, Hbypass. reflexivity.
Qed.

(** ** Reachable objects *)

Lemma setControlModeSrvCall_success_listed platform request (self self' : Controller S) ev :
  setControlModeSrvCall platform request self = (self', true, ev) ->
  platform_available_modes_in_ (base self') <> [].
Proof.
  unfold setControlModeSrvCall, setPlatformControlMode. intros Hcall.
  destruct (listPlatformAvailableControlModes platform
              (set_control_mode_established_ false (base self)))
    as [[listed b1] ev_list] eqn:Hlist.
  destruct listed; simpl in Hcall; [|inv_pair].
  pose proof (listPlatformAvailableControlModes_nonempty _ _ _ _ Hlist) as Hmodes.
  repeat (break_match; simpl in *; inv_pair; try discriminate); simpl; exact Hmodes.
Qed.

Lemma setControlModeSrvCall_keeps_listed platform request (self self' : Controller S)
    success ev :
  setControlModeSrvCall platform request self = (self', success, ev) ->
  platform_available_modes_in_ (base self) <> [] ->
  platform_available_modes_in_ (base self') <> [].
Proof.
  unfold setControlModeSrvCall, setPlatformControlMode. intros Hcall Hbefore.
  destruct (listPlatformAvailableControlModes platform
              (set_control_mode_established_ false (base self)))
    as [[listed b1] ev_list] eqn:Hlist.
  assert (platform_available_modes_in_ b1 <> []) as Hmodes.
  { destruct (listPlatformAvailableControlModes_frame _ _ _ _ _ Hlist)
      as [->|(_ & Hempty & _ & _)]; [exact Hbefore|].
    simpl in Hempty. contradiction. }
  repeat (break_match; simpl in *; inv_pair; try discriminate); simpl; exact Hmodes.
Qed.

Lemma dispatch_established_after_listing (i : Input) (self : Controller S) :
  established_after_listing (base self) ->
  established_after_listing (base (fst (dispatch i self))).
Proof.
  unfold established_after_listing. intros Hinv.
  destruct i; simpl;
    unfold state_callback, ref_pose_callback, ref_twist_callback, ref_traj_callback,
      platform_info_callback, control_timer_callback, sendCommand;
    try (repeat (break_match; simpl); exact Hinv).
  destruct (setControlModeSrvCall platform request self) as [[self' success] ev] eqn:Hcall.
  simpl. intros Hest.
  rewrite (setControlModeSrvCall_established _ _ _ _ _ _ Hcall) in Hest. subst success.
  apply (setControlModeSrvCall_success_listed _ _ _ _ _ Hcall).
Qed.

Lemma reachable_established_after_listing (self : Controller S) :
  reachable self -> established_after_listing (base self).
Proof.
  induction 1 as [use_bypass s|i self Hreach IH|modes self Hreach IH
                  |modes self Hreach IH|v self Hreach IH|v self Hreach IH].
  - unfold established_after_listing. simpl.
    destruct use_bypass; simpl; discriminate.
  - apply dispatch_established_after_listing. exact IH.
  - exact IH.
  - exact IH.
  - exact IH.
  - exact IH.
Qed.

(** C4.  From every reachable object, a request that finds the platform's
    mode list never fetched and is answered an empty list reports failure
    with the "No available control modes" diagnostic and changes nothing of
    the object: the established flag, false before the request since no
    listing ever succeeded, is false after it. *)
Theorem empty_platform_list_fails platform request (self : Controller S) :
  reachable self ->
  platform_available_modes_in_ (base self) = [] ->
  list_control_modes platform = (true, []) ->
  setControlModeSrvCall platform request self =
    (self, false,
     [Log DEBUG "LISTING AVAILABLE MODES"; CallListControlModes;
      Log ERROR "No available control modes"]) /\
  control_mode_established_ (base (fst (fst (setControlModeSrvCall platform request self))))
    = control_mode_established_ (base self).
Proof.
  intros Hreach Hnever Hempty.
  pose proof (reachable_established_after_listing _ Hreach) as Hinv.
  assert (control_mode_established_ (base self) = false) as Hest.
  { destruct (control_mode_established_ (base self)) eqn:He; [|reflexivity].
    exfalso. apply (Hinv He). exact Hnever. }
  rewrite (setControlModeSrvCall_empty_listing _ _ _ Hnever Hempty). simpl.
  split; [|symmetry; exact Hest].
  destruct self as [b s]. simpl in *. destruct b. simpl in *. subst. reflexivity.
Qed.

(** *** Never acting early, with the bypass disabled *)

Lemma setControlModeSrvCall_use_bypass platform request (self self' : Controller S)
    success ev :
  setControlModeSrvCall platform request self = (self', success, ev) ->
  use_bypass_ (base self') = use_bypass_ (base self).
Proof.
  unfold setControlModeSrvCall, setPlatformControlMode. intros Hcall.
  destruct (listPlatformAvailableControlModes platform
              (set_control_mode_established_ false (base self)))
    as [[listed b1] ev_list] eqn:Hlist.
  assert (use_bypass_ b1 = use_bypass_ (base self)) as Hb1.
  { destruct (listPlatformAvailableControlModes_frame _ _ _ _ _ Hlist)
      as [->|(_ & _ & -> & _)]; reflexivity. }
  repeat (break_match; simpl in *; inv_pair; try discriminate); simpl; exact Hb1.
Qed.

(** With the bypass disabled, a request leaves the control loop waiting: it
    is refused, or it has cleared [state_adquired_]. *)
Lemma setControlModeSrvCall_no_bypass_waits platform request (self self' : Controller S)
    success ev :
  use_bypass_ (base self) = false ->
  setControlModeSrvCall platform request self = (self', success, ev) ->
  control_mode_established_ (base self') = false \/ state_adquired_ (base self') = false.
Proof.
  unfold setControlModeSrvCall, setPlatformControlMode. intros Huse Hcall.
  destruct (listPlatformAvailableControlModes platform
              (set_control_mode_established_ false (base self)))
    as [[listed b1] ev_list] eqn:Hlist.
  assert (use_bypass_ b1 = false /\ control_mode_established_ b1 = false) as [Hb1 He1].
  { destruct (listPlatformAvailableControlModes_frame _ _ _ _ _ Hlist)
      as [->|(_ & _ & -> & _)]; split; try reflexivity; exact Huse. }
  rewrite Hb1 in Hcall.
  repeat (break_match; simpl in *; inv_pair; try discriminate); simpl; auto.
Qed.

Lemma run_cons_fst (i : Input) (rest : list Input) (self : Controller S) :
  fst (run (i :: rest) self) = fst (run rest (fst (dispatch i self))).
Proof.
  simpl. destruct (dispatch i self) as [self1 ev1]. simpl.
  destruct (run rest self1). reflexivity.
Qed.

Lemma run_reachable (inputs : list Input) (self : Controller S) :
  reachable self -> reachable (fst (run inputs self)).
Proof.
  revert self. induction inputs as [|i rest IH]; intros self Hreach.
  - exact Hreach.
  - rewrite run_cons_fst. apply IH. apply reachable_dispatch. exact Hreach.
Qed.

(** What one input does to the bypass switch and to what the gate reads. *)
Lemma dispatch_no_bypass_waits (i : Input) (self : Controller S) (seen : bool) :
  use_bypass_ (base self) = false ->
  (control_mode_established_ (base self) = true ->
   state_adquired_ (base self) = true -> seen = true) ->
  use_bypass_ (base (fst (dispatch i self))) = false /\
  (control_mode_established_ (base (fst (dispatch i self))) = true ->
   state_adquired_ (base (fst (dispatch i self))) = true ->
   state_sample_since_negotiation seen [i] = true).
Proof.
  intros Huse Hinv.
  destruct i; simpl;
    unfold state_callback, ref_pose_callback, ref_twist_callback, ref_traj_callback,
      platform_info_callback, control_timer_callback, sendCommand;
    try (repeat (break_match; simpl); (split; [exact Huse|auto]); fail).
  destruct (setControlModeSrvCall platform request self) as [[self' success] ev] eqn:Hcall.
  simpl. split.
  - rewrite (setControlModeSrvCall_use_bypass _ _ _ _ _ _ Hcall). exact Huse.
  - destruct (setControlModeSrvCall_no_bypass_waits _ _ _ _ _ _ Huse Hcall) as [H|H];
      rewrite H; discriminate.
Qed.

Lemma state_sample_since_negotiation_cons seen (i : Input) (rest : list Input) :
  state_sample_since_negotiation seen (i :: rest) =
  state_sample_since_negotiation (state_sample_since_negotiation seen [i]) rest.
Proof. destruct i; reflexivity. Qed.

(** X19.  With the bypass disabled, along every history of inputs, a tick that
    publishes or computes finds the platform armed and in offboard mode, a
    mode established, and a state sample received since the last request. *)
Lemma no_bypass_never_acts_early (history : list Input) (self : Controller S)
    (seen : bool) now :
  use_bypass_ (base self) = false ->
  (control_mode_established_ (base self) = true ->
   state_adquired_ (base self) = true -> seen = true) ->
  existsb is_action (snd (control_timer_callback now (fst (run history self)))) = true ->
  armed (platform_info_ (base (fst (run history self)))) = true /\
  offboard (platform_info_ (base (fst (run history self)))) = true /\
  control_mode_established_ (base (fst (run history self))) = true /\
  state_sample_since_negotiation seen history = true.
Proof.
  revert self seen. induction history as [|i rest IH]; intros self seen Huse Hinv Hacts.
  - simpl in *.
    destruct (control_timer_callback now self) as [self' ev] eqn:Hcall.
    destruct (control_timer_callback_gate _ _ _ _ Hcall Hacts) as (Ha & Ho & He & Hs).
    repeat split; auto.
  - rewrite run_cons_fst in *. rewrite state_sample_since_negotiation_cons.
    destruct (dispatch_no_bypass_waits i self seen Huse Hinv) as [Huse' Hinv'].
    apply IH; assumption.
Qed.

End NegotiationProperties.

(** * The scenarios, run *)

(** C1, as stated, fails: with output modes {0x21, 0x12} and a platform that
    advertises {0x12}, the setter stores [0x12; 0x21], the search finds no
    output mode and the request is refused without a mode-set request. *)
Lemma scan_scenario_selects_nothing :
  controller_available_modes_out_ (base scan_scenario) = [0x12; 0x21] /\
  prefered_output_mode_ (base scan_scenario) = 0 /\
  findSuitableOutputControlModeForPlatformInputMode
    (set_platform_available_modes_in_ [0x12] (base scan_scenario)) 0 0x21 = (false, 0) /\
  snd (fst (setControlModeSrvCall (willing_platform [0x12]) (request_for 0x21)
              scan_scenario)) = false /\
  snd (setControlModeSrvCall (willing_platform [0x12]) (request_for 0x21) scan_scenario) =
    [Log DEBUG "LISTING AVAILABLE MODES"; CallListControlModes;
     Log DEBUG "Available mode: %s"; Log WARN "No suitable output control mode found"].
Proof. repeat split; reflexivity. Qed.

(** C1, as amended, on the scenario of the claim and on a list whose last two
    modes are both advertised. *)
Lemma output_mode_scan_policy_witness :
  (exists b ev_list,
     setControlModeSrvCall (willing_platform [0x12]) (request_for 0x21) scan_scenario =
       ({| base := b; plugin := plugin scan_scenario |}, false,
        ev_list ++ [Log WARN "No suitable output control mode found"]) /\
     (forall m, ~ In (CallSetPlatformControlMode m) ev_list) /\
     control_mode_established_ b = false /\
     output_mode_ b = output_mode_ (base scan_scenario)) /\
  findSuitableOutputControlModeForPlatformInputMode
    (set_platform_available_modes_in_ [0x20; 0x31]
       (base (configured false [] [0x31; 0x12; 0x20] 7))) 0 0x31 = (true, 0x31).
Proof.
  split.
  - apply (proj1 output_mode_scan_policy (willing_platform [0x12]) (request_for 0x21)
             scan_scenario ControllerBase_new).
    + reflexivity.
    + reflexivity.
    + right. split; reflexivity.
  - apply (proj2 (output_mode_scan_policy (S := Z))
             (set_platform_available_modes_in_ [0x20; 0x31]
                (base (configured false [] [0x31; 0x12; 0x20] 7)))
             [0x12; 0x20] 0x31 [] 0 0x31).
    + reflexivity.
    + reflexivity.
    + reflexivity.
    + intros x [].
    + simpl. right. left. reflexivity.
Defined.

(** C2, as stated, fails: a HOVER request (class nibble 1) is accepted with
    the class-4 output mode 0x40, which the platform is then asked for. *)
Lemma hover_request_skips_level_check :
  desired_input_mode hover_request = HOVER_MODE_MASK /\
  Z.land HOVER_MODE_MASK MATCH_MODE < Z.land 0x40 MATCH_MODE /\
  findSuitableOutputControlModeForPlatformInputMode
    (set_platform_available_modes_in_ [0x40] (base hover_scenario)) 0 HOVER_MODE_MASK
    = (true, 0x40) /\
  checkSuitabilityInputMode (base hover_scenario) HOVER_MODE_MASK 0x40 = (true, []) /\
  snd (fst (setControlModeSrvCall (willing_platform [0x40]) hover_request hover_scenario))
    = true /\
  output_mode_ (base (fst (fst (setControlModeSrvCall (willing_platform [0x40])
                                  hover_request hover_scenario))))
    = convertUint8tToAS2ControlMode 0x40.
Proof. repeat split; reflexivity. Qed.

(** C2, as amended, on a HOVER input, on a class-2 input against a class-4
    output and on equal classes. *)
Lemma level_check_policy_witness :
  checkSuitabilityInputMode (base hover_scenario) HOVER_MODE_MASK 0x40 = (true, []) /\
  checkSuitabilityInputMode (base hover_scenario) 0x10 0x40 = (true, []) /\
  checkSuitabilityInputMode (base (configured false [0x20] [0x40] 7)) 0x20 0x40 =
    (false, [Log ERROR "Input control mode has lower level than output control mode"]) /\
  lower_level_than_output 0x40 0x40 = false.
Proof.
  split; [|split; [|split]].
  - apply (proj1 (level_check_policy (S := Z) (base hover_scenario) HOVER_MODE_MASK 0x40)).
    reflexivity.
  - apply (proj1 (proj2 (level_check_policy (S := Z) (base hover_scenario) 0x10 0x40))).
    simpl. left. reflexivity.
  - apply (proj1 (proj2 (proj2 (level_check_policy (S := Z)
                                  (base (configured false [0x20] [0x40] 7)) 0x20 0x40)))).
    + simpl. discriminate.
    + reflexivity.
    + reflexivity.
  - apply (proj2 (proj2 (proj2 (level_check_policy (S := Z)
                                  (base hover_scenario) 0x40 0x40)))).
    + reflexivity.
    + simpl. lia.
Defined.

(** The scenarios start from reachable objects. *)
Lemma configured_reachable use_bypass modes_in modes_out highest :
  reachable (configured use_bypass modes_in modes_out highest).
Proof.
  unfold configured.
  apply (reachable_setOutputControlModesAvailables modes_out
           {| base := setInputControlModesAvailables modes_in _; plugin := _ |}).
  apply reachable_setInputControlModesAvailables.
  apply reachable_initialize.
Qed.

(** C4 after a state sample: the platform answers the listing with an empty
    list. *)
Lemma empty_platform_list_fails_witness :
  setControlModeSrvCall (willing_platform []) (request_for 0x21)
    (fst (run [StateSample state_pose_1 state_twist_1] scan_scenario)) =
    (fst (run [StateSample state_pose_1 state_twist_1] scan_scenario), false,
     [Log DEBUG "LISTING AVAILABLE MODES"; CallListControlModes;
      Log ERROR "No available control modes"]) /\
  control_mode_established_
    (base (fst (fst (setControlModeSrvCall (willing_platform []) (request_for 0x21)
                       (fst (run [StateSample state_pose_1 state_twist_1]
                               scan_scenario))))))
  = control_mode_established_
      (base (fst (run [StateSample state_pose_1 state_twist_1] scan_scenario))).
Proof.
  apply empty_platform_list_fails.
  - apply run_reachable. apply configured_reachable.
  - reflexivity.
  - reflexivity.
Defined.

(** C5, as stated, fails: the references stamped at 2 s and 3 s are
    republished at 10 s with the stamps they came with. *)
Lemma bypass_tick_keeps_reference_stamp :
  snd (control_timer_callback (at_time 10)
         (fst (run bypass_then_samples (bypass_scenario 7)))) =
    [PublishPose reference_pose_2; PublishTwist reference_twist_3] /\
  stamp (pose_header reference_pose_2) = at_time 2 /\
  stamp (twist_header reference_twist_3) = at_time 3 /\
  at_time 2 <> at_time 10 /\
  at_time 3 <> at_time 10.
Proof. repeat split; try reflexivity; discriminate. Qed.

(** C5, as amended, on the tick at 10 s after the bypass was negotiated and
    the samples arrived. *)
Lemma bypass_tick_republishes_witness :
  control_timer_callback (at_time 10) (fst (run bypass_then_samples (bypass_scenario 7))) =
    (fst (run bypass_then_samples (bypass_scenario 7)),
     [PublishPose reference_pose_2; PublishTwist reference_twist_3]).
Proof.
  exact (proj1 (bypass_tick_republishes (at_time 10)
                  (fst (run bypass_then_samples (bypass_scenario 7)))
                  eq_refl eq_refl eq_refl eq_refl eq_refl) eq_refl).
Defined.

(** C6, as stated, fails: the HOVER code matches the listed 0x11 under
    [MATCH_MODE], yet the membership scan rejects it. *)
Lemma framed_hover_not_accepted :
  Z.land HOVER_MODE_MASK MATCH_MODE = HOVER_MODE_MASK /\
  In 0x11 (controller_available_modes_in_ (base framed_hover_scenario)) /\
  masked_match HOVER_MODE_MASK MATCH_MODE 0x11 /\
  checkSuitabilityInputMode_loop HOVER_MODE_MASK
    (controller_available_modes_in_ (base framed_hover_scenario)) = ModeFound false /\
  checkSuitabilityInputMode (base framed_hover_scenario) HOVER_MODE_MASK HOVER_MODE_MASK
    = (false, []).
Proof. repeat split; try reflexivity. simpl. left. reflexivity. Qed.

(** C6, as amended: HOVER and a listed mode are accepted where the list
    holds [HOVER_MODE_MASK]; HOVER is rejected where it holds 0x11 instead. *)
Lemma input_membership_check_witness :
  membership_accepts HOVER_MODE_MASK (controller_available_modes_in_ (base hover_scenario)) /\
  membership_accepts 0x40 (controller_available_modes_in_ (base hover_scenario)) /\
  fst (checkSuitabilityInputMode (base framed_hover_scenario) HOVER_MODE_MASK 0x40) = false.
Proof.
  split; [|split].
  - apply (proj1 (input_membership_check (S := Z) (base hover_scenario) HOVER_MODE_MASK)).
    left. split; [reflexivity|]. simpl. left. reflexivity.
  - apply (proj1 (input_membership_check (S := Z) (base hover_scenario) 0x40)).
    right. simpl. right. left. reflexivity.
  - apply (proj2 (input_membership_check (S := Z) (base framed_hover_scenario)
                    HOVER_MODE_MASK)).
    intros Haccepts. apply Haccepts. reflexivity.
Defined.

(** C9 on two requests: 0x40 is established, then 0x60 is accepted by the
    platform as output 0x40 and refused by the subclass. *)
Lemma refused_setMode_keeps_new_modes_witness :
  getMode (base (fst (run [SetControlModeCall (willing_platform [0x40]) (request_for 0x40)]
                        class4_scenario))) = request_for 0x40 /\
  control_mode_established_
    (base (fst (run [SetControlModeCall (willing_platform [0x40]) (request_for 0x40)]
                  class4_scenario))) = true /\
  fst (setMode (request_for 0x60) (request_for 0x40) 4) = false /\
  control_mode_established_
    (base (fst (fst (setControlModeSrvCall (willing_platform [0x40]) (request_for 0x60)
                       (fst (run [SetControlModeCall (willing_platform [0x40])
                                    (request_for 0x40)] class4_scenario))))))
    = false /\
  getMode
    (base (fst (fst (setControlModeSrvCall (willing_platform [0x40]) (request_for 0x60)
                       (fst (run [SetControlModeCall (willing_platform [0x40])
                                    (request_for 0x40)] class4_scenario))))))
    = request_for 0x60.
Proof.
  split; [vm_compute; reflexivity|]. split; [vm_compute; reflexivity|].
  destruct (refused_setMode_keeps_new_modes
              (willing_platform [0x40]) (request_for 0x60)
              (fst (run [SetControlModeCall (willing_platform [0x40]) (request_for 0x40)]
                      class4_scenario))
              (fst (fst (setControlModeSrvCall (willing_platform [0x40]) (request_for 0x60)
                           (fst (run [SetControlModeCall (willing_platform [0x40])
                                        (request_for 0x40)] class4_scenario)))))
              (snd (setControlModeSrvCall (willing_platform [0x40]) (request_for 0x60)
                      (fst (run [SetControlModeCall (willing_platform [0x40])
                                   (request_for 0x40)] class4_scenario))))
              (request_for 0x60) (request_for 0x40))
    as (Hrefused & Hest & Hmode & _ & _).
  - vm_compute. reflexivity.
  - vm_compute. repeat (first [left; reflexivity | right]).
  - split; [exact Hrefused|]. split; [exact Hest|exact Hmode].
Defined.

(** C10 on a platform that advertises 0x55 and declines the mode-set
    request, followed by a state sample and a reference pose. *)
Lemma failed_bypass_keeps_flag_witness :
  bypass_controller_
    (base (fst (fst (setControlModeSrvCall (unwilling_platform [0x55]) (request_for 0x55)
                       (bypass_scenario 7))))) = true /\
  control_mode_established_
    (base (fst (fst (setControlModeSrvCall (unwilling_platform [0x55]) (request_for 0x55)
                       (bypass_scenario 7))))) = false /\
  snd (run [StateSample state_pose_1 state_twist_1; RefPoseSample reference_pose_2]
         (fst (fst (setControlModeSrvCall (unwilling_platform [0x55]) (request_for 0x55)
                      (bypass_scenario 7))))) = [] /\
  cached (RefPoseSample reference_pose_2)
    (base (fst (run [StateSample state_pose_1 state_twist_1; RefPoseSample reference_pose_2]
                  (fst (fst (setControlModeSrvCall (unwilling_platform [0x55])
                               (request_for 0x55) (bypass_scenario 7))))))).
Proof.
  destruct (failed_bypass_keeps_flag
              (unwilling_platform [0x55]) (request_for 0x55) (bypass_scenario 7)
              (fst (fst (setControlModeSrvCall (unwilling_platform [0x55])
                           (request_for 0x55) (bypass_scenario 7))))
              (set_bypass_controller_ true
                 (set_platform_available_modes_in_ [0x55] (base (bypass_scenario 7))))
              [Log DEBUG "LISTING AVAILABLE MODES"; CallListControlModes;
               Log DEBUG "Available mode: %s"]
              0x55
              (snd (setControlModeSrvCall (unwilling_platform [0x55])
                      (request_for 0x55) (bypass_scenario 7))))
    as (_ & Hbypass & Hest & Hsamples).
  - exists (set_platform_available_modes_in_ [0x55] (base (bypass_scenario 7))).
    split; [vm_compute; reflexivity|]. split; [vm_compute; reflexivity|].
    split; vm_compute; reflexivity.
  - vm_compute. reflexivity.
  - destruct (Hsamples [StateSample state_pose_1 state_twist_1]
                (RefPoseSample reference_pose_2)
                (fst (run [StateSample state_pose_1 state_twist_1;
                           RefPoseSample reference_pose_2]
                        (fst (fst (setControlModeSrvCall (unwilling_platform [0x55])
                                     (request_for 0x55) (bypass_scenario 7))))))
                (snd (run [StateSample state_pose_1 state_twist_1;
                           RefPoseSample reference_pose_2]
                        (fst (fst (setControlModeSrvCall (unwilling_platform [0x55])
                                     (request_for 0x55) (bypass_scenario 7)))))))
      as (Hquiet & _ & Hcached & _ & _).
    + reflexivity.
    + vm_compute. reflexivity.
    + split; [exact Hbypass|]. split; [exact Hest|]. split; [exact Hquiet|exact Hcached].
Defined.

(** C3, on the failing input: the request for 0x55 succeeds on the bypass
    and both acquired flags, set by the samples that came before it, are
    still set when it returns. *)
Theorem bypass_success_leaves_acquired_flags :
  last (snd (run bypass_history (bypass_scenario 7))) (ServiceResponse false)
    = ServiceResponse true /\
  bypass_controller_ (base (fst (run bypass_history (bypass_scenario 7)))) = true /\
  control_mode_established_ (base (fst (run bypass_history (bypass_scenario 7)))) = true /\
  state_adquired_ (base (fst (run bypass_history (bypass_scenario 7)))) = true /\
  motion_reference_adquired_ (base (fst (run bypass_history (bypass_scenario 7)))) = true.
Proof. repeat split; vm_compute; reflexivity. Qed.

(** C8, on the failing input: no state sample has arrived since the request
    for 0x55, and the next tick publishes. *)
Theorem tick_after_bypass_acts_on_stale_state :
  state_sample_since_negotiation false bypass_history = false /\
  snd (control_timer_callback (at_time 10) (fst (run bypass_history (bypass_scenario 7)))) =
    [PublishPose reference_pose_2; PublishTwist reference_twist_3] /\
  existsb is_action
    (snd (control_timer_callback (at_time 10)
            (fst (run bypass_history (bypass_scenario 7))))) = true.
Proof. repeat split; vm_compute; reflexivity. Qed.

(** * Further properties of the code *)

(** ** Vocabulary *)

Definition is_byte (x : Z) : Prop := 0 <= x <= 255.

Definition member (x : uint8_t) (l : list uint8_t) : bool := existsb (Z.eqb x) l.

(** The last mode of a list that the output-mode scan does not skip. *)
Fixpoint last_unskipped (modes_out : list uint8_t) : option uint8_t :=
  match modes_out with
  | [] => None
  | mode_out :: rest =>
      match last_unskipped rest with
      | Some m => Some m
      | None => if skipped_class mode_out then None else Some mode_out
      end
  end.

(** How many events of a trace satisfy a test. *)
Definition count_events (f : Event -> bool) (ev : list Event) : nat :=
  List.length (filter f ev).

Definition is_list_request (e : Event) : bool :=
  match e with CallListControlModes => true | _ => false end.

Definition is_mode_set_request (e : Event) : bool :=
  match e with CallSetPlatformControlMode _ => true | _ => false end.

Definition is_setMode_call (e : Event) : bool :=
  match e with HookSetMode _ _ => true | _ => false end.

(** ** The matcher under MATCH_ALL *)

Lemma member_In x l : member x l = true <-> In x l.
Proof.
  unfold member. rewrite existsb_exists. split.
  - intros (y & Hin & Heq). apply Z.eqb_eq in Heq. subst y. exact Hin.
  - intros Hin. exists x. split; [exact Hin|apply Z.eqb_refl].
Qed.

Lemma land_MATCH_ALL_byte x : is_byte x -> Z.land x MATCH_ALL = x.
Proof.
  unfold is_byte. intros Hx. change MATCH_ALL with (Z.ones 8).
  rewrite Z.land_ones by lia. apply Z.mod_small. change (2 ^ 8) with 256. lia.
Qed.

Lemma findBestMatchWithMask_loop_sound mode mask mode_list best :
  findBestMatchWithMask_loop mode mask mode_list best = best \/
  (In (findBestMatchWithMask_loop mode mask mode_list best) mode_list /\
   masked_match mode mask (findBestMatchWithMask_loop mode mask mode_list best)).
Proof.
  revert best. induction mode_list as [|c rest IH]; intros best; simpl.
  - left. reflexivity.
  - destruct (checkMatchWithMask mode c mask) eqn:Hmatch.
    + apply checkMatchWithMask_spec in Hmatch.
      destruct (c =? mode) eqn:Hexact.
      * right. split; [left; reflexivity|exact Hmatch].
      * destruct (IH c) as [Hkept|[Hin Hm]].
        -- rewrite Hkept. right. split; [left; reflexivity|exact Hmatch].
        -- right. split; [right; exact Hin|exact Hm].
    + destruct (IH best) as [Hkept|[Hin Hm]].
      * left. exact Hkept.
      * right. split; [right; exact Hin|exact Hm].
Qed.

(** X1.  Whatever the mode, the list and the mask, [findBestMatchWithMask]
    returns 0 or an element of the list that matches the mode under the mask:
    it never makes up a code. *)
Theorem findBestMatchWithMask_sound (mode mask : uint8_t) (mode_list : list uint8_t) :
  findBestMatchWithMask mode mode_list mask = 0 \/
  (In (findBestMatchWithMask mode mode_list mask) mode_list /\
   masked_match mode mask (findBestMatchWithMask mode mode_list mask)).
Proof. apply findBestMatchWithMask_loop_sound. Qed.

(** On bytes, matching under [MATCH_ALL] is a membership test. *)
Lemma findBestMatchWithMask_bytes mode mode_list :
  is_byte mode -> Forall is_byte mode_list ->
  findBestMatchWithMask mode mode_list MATCH_ALL =
    if member mode mode_list then mode else 0.
Proof.
  intros Hmode Hlist. destruct (member mode mode_list) eqn:Hmem.
  - apply findBestMatchWithMask_present. apply member_In. exact Hmem.
  - apply findBestMatchWithMask_loop_no_match.
    intros c Hin Hmatch. unfold masked_match in Hmatch.
    rewrite Forall_forall in Hlist.
    rewrite (land_MATCH_ALL_byte c (Hlist c Hin)), (land_MATCH_ALL_byte mode Hmode) in Hmatch.
    subst c. apply member_In in Hin. congruence.
Qed.

Lemma skipped_class_nonzero m : skipped_class m = false -> m <> 0.
Proof. intros Hm ->. rewrite skipped_class_zero in Hm. discriminate. Qed.

(** X2.  On bytes, [tryToBypassController] lets the bypass through exactly
    when the desired input mode is not of class UNSET or HOVER and the
    platform advertises that very mode, which then is the output mode;
    otherwise it returns false and leaves the output mode as it was. *)
Theorem tryToBypassController_bytes (b : ControllerBase) (input_mode output_mode : uint8_t) :
  is_byte input_mode ->
  Forall is_byte (platform_available_modes_in_ b) ->
  tryToBypassController b input_mode output_mode =
    if skipped_class input_mode then (false, output_mode)
    else if member input_mode (platform_available_modes_in_ b) then (true, input_mode)
    else (false, output_mode).
Proof.
  intros Hinput Hplatform. unfold tryToBypassController.
  change ((Z.land input_mode MATCH_MODE =? UNSET_MODE_MASK)
          || (Z.land input_mode MATCH_MODE =? HOVER_MODE_MASK))
    with (skipped_class input_mode).
  destruct (skipped_class input_mode) eqn:Hclass; [reflexivity|].
  rewrite (findBestMatchWithMask_bytes _ _ Hinput Hplatform).
  destruct (member input_mode (platform_available_modes_in_ b)); [|reflexivity].
  pose proof (skipped_class_nonzero _ Hclass) as Hnz.
  apply Z.eqb_neq in Hnz. rewrite Hnz. reflexivity.
Qed.

(** ** The output-mode scan *)

Lemma last_unskipped_spec modes_out m :
  last_unskipped modes_out = Some m -> In m modes_out /\ skipped_class m = false.
Proof.
  induction modes_out as [|x rest IH]; simpl; [discriminate|].
  destruct (last_unskipped rest) as [y|].
  - intros H. inversion H; subst. destruct (IH eq_refl) as [Hin Hm].
    split; [right; exact Hin|exact Hm].
  - destruct (skipped_class x) eqn:Hx; [discriminate|].
    intros H. inversion H; subst. split; [left; reflexivity|exact Hx].
Qed.

Lemma findSuitableOutput_loop_last_unskipped platform_modes modes_out common_mode :
  findSuitableOutput_loop platform_modes modes_out common_mode =
    match last_unskipped modes_out with
    | Some m => findBestMatchWithMask m platform_modes MATCH_ALL
    | None => common_mode
    end.
Proof.
  revert common_mode. induction modes_out as [|x rest IH]; intros c; simpl.
  - reflexivity.
  - change ((Z.land x MATCH_MODE =? UNSET_MODE_MASK)
            || (Z.land x MATCH_MODE =? HOVER_MODE_MASK)) with (skipped_class x).
    destruct (skipped_class x); rewrite IH; destruct (last_unskipped rest); reflexivity.
Qed.

(** X3.  With no preferred output mode and bytes in both lists, the search
    for an output mode is decided by one mode alone, the last mode of the
    controller's output list that is not of class UNSET or HOVER: it is
    selected when the platform advertises it, and the search fails otherwise,
    whatever the modes before it matched; with no such mode the search
    fails. *)
Theorem output_mode_search_bytes (b : ControllerBase) (output_mode input_mode : uint8_t) :
  prefered_output_mode_ b = 0 ->
  Forall is_byte (controller_available_modes_out_ b) ->
  Forall is_byte (platform_available_modes_in_ b) ->
  findSuitableOutputControlModeForPlatformInputMode b output_mode input_mode =
    match last_unskipped (controller_available_modes_out_ b) with
    | Some m =>
        if member m (platform_available_modes_in_ b) then (true, m)
        else (false, output_mode)
    | None => (false, output_mode)
    end.
Proof.
  intros Hpref Houts Hplatform.
  unfold findSuitableOutputControlModeForPlatformInputMode, scanOutputModes.
  rewrite Hpref. simpl. rewrite findSuitableOutput_loop_last_unskipped.
  destruct (last_unskipped (controller_available_modes_out_ b)) as [m|] eqn:Hlast;
    [|reflexivity].
  destruct (last_unskipped_spec _ _ Hlast) as [Hin Hclass].
  rewrite Forall_forall in Houts.
  rewrite (findBestMatchWithMask_bytes _ _ (Houts m Hin) Hplatform).
  destruct (member m (platform_available_modes_in_ b)); [|reflexivity].
  pose proof (skipped_class_nonzero _ Hclass) as Hnz.
  apply Z.eqb_neq in Hnz. rewrite Hnz. reflexivity.
Qed.

(** ** Requests, path by path *)

Lemma count_events_app f (ev1 ev2 : list Event) :
  count_events f (ev1 ++ ev2) = (count_events f ev1 + count_events f ev2)%nat.
Proof. unfold count_events. rewrite filter_app, length_app. reflexivity. Qed.

Lemma count_events_none f (ev : list Event) :
  (forall e, In e ev -> f e = false) -> count_events f ev = 0%nat.
Proof.
  unfold count_events. induction ev as [|e rest IH]; intros Hnone; simpl.
  - reflexivity.
  - rewrite (Hnone e (or_introl eq_refl)). apply IH.
    intros e' Hin. apply Hnone. right. exact Hin.
Qed.

Ltac count_literals :=
  rewrite ?count_events_app;
  repeat match goal with
         | |- context [count_events ?f (?e :: ?l)] =>
             change (count_events f (e :: l)) with (List.length (filter f (e :: l)))
         | |- context [count_events ?f []] =>
             change (count_events f []) with 0%nat
         end;
  simpl.

Section RequestProperties.
Context {utils : ControlModeUtils} {S : Type} {hooks : ControllerPlugin S}.

(** X4.  A request whose desired input mode is of class UNSET or HOVER never
    takes the bypass, enabled or not: once the platform's modes are listed,
    [bypass_controller_] is false when the request returns, and so it is
    after every such request that succeeds. *)
Theorem unset_and_hover_never_bypass platform request (self self' : Controller S)
    success ev :
  skipped_class (desired_input_mode request) = true ->
  setControlModeSrvCall platform request self = (self', success, ev) ->
  (fst (fst (listPlatformAvailableControlModes platform
               (set_control_mode_established_ false (base self)))) = true ->
   bypass_controller_ (base self') = false) /\
  (success = true -> bypass_controller_ (base self') = false).
Proof.
  intros Hclass Hcall.
  unfold setControlModeSrvCall, setPlatformControlMode in Hcall.
  destruct (listPlatformAvailableControlModes platform
              (set_control_mode_established_ false (base self)))
    as [[listed b1] ev_list] eqn:Hlist.
  assert (tryToBypassController b1 (desired_input_mode request) 0 = (false, 0)) as Htry.
  { unfold tryToBypassController. unfold skipped_class in Hclass. rewrite Hclass.
    reflexivity. }
  destruct listed.
  - assert (bypass_controller_ (base self') = false) as Hb; [|split; intros _; exact Hb].
    simpl in Hcall. rewrite Htry in Hcall.
    destruct (use_bypass_ b1); simpl in Hcall;
      repeat (break_match; simpl in *; inv_pair; try discriminate); reflexivity.
  - simpl in Hcall. inv_pair. split; intros H; discriminate H.
Qed.

(** X5.  No request, whatever its outcome, writes the controller's two mode
    lists, the platform status, the bypass switch, the preferred output mode
    or any cached sample. *)
Theorem setControlModeSrvCall_frame platform request (self self' : Controller S)
    success ev :
  setControlModeSrvCall platform request self = (self', success, ev) ->
  controller_available_modes_in_ (base self') = controller_available_modes_in_ (base self) /\
  controller_available_modes_out_ (base self') = controller_available_modes_out_ (base self) /\
  platform_info_ (base self') = platform_info_ (base self) /\
  use_bypass_ (base self') = use_bypass_ (base self) /\
  prefered_output_mode_ (base self') = prefered_output_mode_ (base self) /\
  pose_ (base self') = pose_ (base self) /\
  twist_ (base self') = twist_ (base self) /\
  ref_pose_ (base self') = ref_pose_ (base self) /\
  ref_twist_ (base self') = ref_twist_ (base self) /\
  ref_traj_ (base self') = ref_traj_ (base self).
Proof.
  unfold setControlModeSrvCall, setPlatformControlMode. intros Hcall.
  destruct (listPlatformAvailableControlModes platform
              (set_control_mode_established_ false (base self)))
    as [[listed b1] ev_list] eqn:Hlist.
  assert (controller_available_modes_in_ b1 = controller_available_modes_in_ (base self) /\
          controller_available_modes_out_ b1 = controller_available_modes_out_ (base self) /\
          platform_info_ b1 = platform_info_ (base self) /\
          use_bypass_ b1 = use_bypass_ (base self) /\
          prefered_output_mode_ b1 = prefered_output_mode_ (base self) /\
          pose_ b1 = pose_ (base self) /\
          twist_ b1 = twist_ (base self) /\
          ref_pose_ b1 = ref_pose_ (base self) /\
          ref_twist_ b1 = ref_twist_ (base self) /\
          ref_traj_ b1 = ref_traj_ (base self)) as Hb1.
  { destruct (listPlatformAvailableControlModes_frame _ _ _ _ _ Hlist)
      as [->|(_ & _ & -> & _)]; repeat split. }
  repeat (break_match; simpl in *; inv_pair; try discriminate); simpl; exact Hb1.
Qed.

(** X6.  A request that reports failure without having reached the
    subclass's [setMode] has left the subclass's members, [input_mode_],
    [output_mode_] and the two acquired flags as they were: the modes of an
    earlier negotiation are still what [getMode] returns. *)
Theorem early_failure_keeps_modes platform request (self self' : Controller S) ev :
  setControlModeSrvCall platform request self = (self', false, ev) ->
  (forall mode_in mode_out, ~ In (HookSetMode mode_in mode_out) ev) ->
  plugin self' = plugin self /\
  getMode (base self') = getMode (base self) /\
  output_mode_ (base self') = output_mode_ (base self) /\
  state_adquired_ (base self') = state_adquired_ (base self) /\
  motion_reference_adquired_ (base self') = motion_reference_adquired_ (base self).
Proof.
  unfold setControlModeSrvCall, setPlatformControlMode, getMode. intros Hcall Hnohook.
  destruct (listPlatformAvailableControlModes platform
              (set_control_mode_established_ false (base self)))
    as [[listed b1] ev_list] eqn:Hlist.
  assert (input_mode_ b1 = input_mode_ (base self) /\
          output_mode_ b1 = output_mode_ (base self) /\
          state_adquired_ b1 = state_adquired_ (base self) /\
          motion_reference_adquired_ b1 = motion_reference_adquired_ (base self)) as Hb1.
  { destruct (listPlatformAvailableControlModes_frame _ _ _ _ _ Hlist)
      as [->|(_ & _ & -> & _)]; repeat split. }
  repeat (break_match; simpl in *; inv_pair; try discriminate); simpl;
    try (split; [reflexivity|exact Hb1]);
    exfalso; eapply Hnohook; rewrite !in_app_iff; simpl; eauto 12.
Qed.

(** X7.  A request reports success only after the platform accepted the
    mode-set request for the mode now stored in [output_mode_] and the
    subclass's [setMode] returned true; [input_mode_] then holds the mode of
    the request, the subclass's members are those [setMode] left, and the
    platform's modes are listed. *)
Theorem success_means_both_agreed platform request (self self' : Controller S) ev :
  setControlModeSrvCall platform request self = (self', true, ev) ->
  In (CallSetPlatformControlMode (output_mode_ (base self'))) ev /\
  set_platform_control_mode platform (output_mode_ (base self')) = (true, true) /\
  getMode (base self') = request /\
  platform_available_modes_in_ (base self') <> [] /\
  exists mode_in mode_out,
    In (HookSetMode mode_in mode_out) ev /\
    setMode mode_in mode_out (plugin self) = (true, plugin self').
Proof.
  unfold setControlModeSrvCall, setPlatformControlMode, getMode. intros Hcall.
  destruct (listPlatformAvailableControlModes platform
              (set_control_mode_established_ false (base self)))
    as [[listed b1] ev_list] eqn:Hlist.
  destruct listed; simpl in Hcall; [|inv_pair].
  pose proof (listPlatformAvailableControlModes_nonempty _ _ _ _ Hlist) as Hmodes.
  repeat (break_match; simpl in *; inv_pair; try discriminate); simpl;
    repeat match goal with
           | H : _ && _ = true |- _ => apply andb_prop in H; destruct H; subst
           | H : negb _ = false |- _ => apply negb_false_iff in H
           end;
    (split; [rewrite !in_app_iff; simpl; auto 12|]);
    (split; [first [assumption|reflexivity]|]); (split; [reflexivity|]);
    (split; [exact Hmodes|]);
    eexists _, _; (split; [rewrite !in_app_iff; simpl; eauto 12|]);
    first [assumption|reflexivity].
Qed.

(** *** Counting the calls of a request *)

Lemma quiet_not_mode_set e : is_quiet e = true -> is_mode_set_request e = false.
Proof. destruct e; simpl; intros H; try reflexivity; discriminate H. Qed.

Lemma quiet_not_setMode e : is_quiet e = true -> is_setMode_call e = false.
Proof. destruct e; simpl; intros H; try reflexivity; discriminate H. Qed.

Lemma checkSuitabilityInputMode_no_list_request b input_mode output_mode ok ev :
  checkSuitabilityInputMode b input_mode output_mode = (ok, ev) ->
  count_events is_list_request ev = 0%nat.
Proof.
  unfold checkSuitabilityInputMode. intros H.
  repeat (break_match; inv_pair; try discriminate); reflexivity.
Qed.

(** The listing asks the platform once when the list is empty and not at all
    when it is cached; what it caches is the platform's answer. *)
Lemma listPlatformAvailableControlModes_asks platform b ok b' ev :
  listPlatformAvailableControlModes platform b = (ok, b', ev) ->
  count_events is_list_request ev =
    match platform_available_modes_in_ b with
    | [] => 1%nat
    | _ :: _ => 0%nat
    end /\
  platform_available_modes_in_ b' =
    match platform_available_modes_in_ b with
    | [] => if fst (list_control_modes platform)
            then snd (list_control_modes platform) else []
    | _ :: _ => platform_available_modes_in_ b
    end.
Proof.
  unfold listPlatformAvailableControlModes. intros H.
  destruct (platform_available_modes_in_ b) as [|m rest] eqn:Hmodes.
  - destruct (list_control_modes platform) as [out control_modes]. simpl.
    destruct out; simpl in H.
    + destruct control_modes as [|c cs]; inv_pair; simpl.
      * split; [reflexivity|exact Hmodes].
      * split; [|reflexivity].
        unfold count_events. simpl. f_equal.
        induction cs as [|x xs IH]; simpl; [reflexivity|exact IH].
    + inv_pair. split; [reflexivity|exact Hmodes].
  - inv_pair. split; [reflexivity|exact Hmodes].
Qed.

(** X8.  One request sends the platform at most one list request and at most
    one mode-set request, and calls the subclass's [setMode] at most once. *)
Theorem request_calls_at_most_once platform request (self self' : Controller S)
    success ev :
  setControlModeSrvCall platform request self = (self', success, ev) ->
  (count_events is_list_request ev <= 1)%nat /\
  (count_events is_mode_set_request ev <= 1)%nat /\
  (count_events is_setMode_call ev <= 1)%nat.
Proof.
  unfold setControlModeSrvCall, setPlatformControlMode. intros Hcall.
  destruct (listPlatformAvailableControlModes platform
              (set_control_mode_established_ false (base self)))
    as [[listed b1] ev_list] eqn:Hlist.
  pose proof (listPlatformAvailableControlModes_quiet _ _ _ _ _ Hlist) as Hquiet.
  assert (count_events is_list_request ev_list <= 1)%nat as Hasks.
  { rewrite (proj1 (listPlatformAvailableControlModes_asks _ _ _ _ _ Hlist)).
    destruct (platform_available_modes_in_ _); lia. }
  assert (count_events is_mode_set_request ev_list = 0)%nat as Hnoset.
  { apply count_events_none. intros e Hin. apply quiet_not_mode_set, Hquiet, Hin. }
  assert (count_events is_setMode_call ev_list = 0)%nat as Hnohook.
  { apply count_events_none. intros e Hin. apply quiet_not_setMode, Hquiet, Hin. }
  destruct listed; simpl in Hcall; [|inv_pair; lia].
  destruct (if use_bypass_ b1
            then tryToBypassController b1 (desired_input_mode request) 0
            else (false, 0)) as [bypass candidate0].
  destruct bypass; simpl in Hcall.
  - repeat (break_match; simpl in *; inv_pair; try discriminate);
      count_literals; lia.
  - destruct (findSuitableOutputControlModeForPlatformInputMode
                (set_bypass_controller_ false b1) candidate0
                (desired_input_mode request)) as [found candidate].
    destruct found; simpl in Hcall;
      [|inv_pair; count_literals; lia].
    destruct (checkSuitabilityInputMode (set_bypass_controller_ false b1)
                (desired_input_mode request) candidate) as [suitable ev_check] eqn:Hcheck.
    pose proof (checkSuitabilityInputMode_quiet _ _ _ _ _ Hcheck) as Hquiet'.
    pose proof (checkSuitabilityInputMode_no_list_request _ _ _ _ _ Hcheck) as Hcl.
    assert (count_events is_mode_set_request ev_check = 0)%nat as Hcs.
    { apply count_events_none. intros e Hin. apply quiet_not_mode_set, Hquiet', Hin. }
    assert (count_events is_setMode_call ev_check = 0)%nat as Hch.
    { apply count_events_none. intros e Hin. apply quiet_not_setMode, Hquiet', Hin. }
    repeat (break_match; simpl in *; inv_pair; try discriminate);
      count_literals; rewrite ?Hcl, ?Hcs, ?Hch; lia.
Qed.

(** A request asks for the list as often as its listing step does, and
    leaves the list that step left. *)
Lemma setControlModeSrvCall_listing platform request (self self' : Controller S)
    success ev listed b1 ev_list :
  setControlModeSrvCall platform request self = (self', success, ev) ->
  listPlatformAvailableControlModes platform
    (set_control_mode_established_ false (base self)) = (listed, b1, ev_list) ->
  count_events is_list_request ev = count_events is_list_request ev_list /\
  platform_available_modes_in_ (base self') = platform_available_modes_in_ b1.
Proof.
  unfold setControlModeSrvCall, setPlatformControlMode. intros Hcall Hlist.
  rewrite Hlist in Hcall.
  destruct listed; simpl in Hcall; [|inv_pair; split; reflexivity].
  destruct (if use_bypass_ b1
            then tryToBypassController b1 (desired_input_mode request) 0
            else (false, 0)) as [bypass candidate0].
  destruct bypass; simpl in Hcall.
  - repeat (break_match; simpl in *; inv_pair; try discriminate);
      count_literals; (split; [lia|reflexivity]).
  - destruct (findSuitableOutputControlModeForPlatformInputMode
                (set_bypass_controller_ false b1) candidate0
                (desired_input_mode request)) as [found candidate].
    destruct found; simpl in Hcall;
      [|inv_pair; count_literals; split; [lia|reflexivity]].
    destruct (checkSuitabilityInputMode (set_bypass_controller_ false b1)
                (desired_input_mode request) candidate)
      as [suitable ev_check] eqn:Hcheck.
    pose proof (checkSuitabilityInputMode_no_list_request _ _ _ _ _ Hcheck) as Hcl.
    repeat (break_match; simpl in *; inv_pair; try discriminate);
      count_literals; rewrite ?Hcl; (split; [lia|reflexivity]).
Qed.

(** X9.  When a request finds no cached list it asks the platform exactly
    once, and the list it leaves is the platform's answer if the call went
    through and stays empty if it did not: a failed listing is not cached,
    the next request asks again.  When a request finds a cached list it does
    not ask, and the list stays as it is. *)
Theorem listing_is_cached_once platform request (self self' : Controller S)
    success ev :
  setControlModeSrvCall platform request self = (self', success, ev) ->
  (platform_available_modes_in_ (base self) = [] ->
   count_events is_list_request ev = 1%nat /\
   platform_available_modes_in_ (base self') =
     if fst (list_control_modes platform) then snd (list_control_modes platform)
     else []) /\
  (platform_available_modes_in_ (base self) <> [] ->
   count_events is_list_request ev = 0%nat /\
   platform_available_modes_in_ (base self') = platform_available_modes_in_ (base self)).
Proof.
  intros Hcall.
  destruct (listPlatformAvailableControlModes platform
              (set_control_mode_established_ false (base self)))
    as [[listed b1] ev_list] eqn:Hlist.
  destruct (listPlatformAvailableControlModes_asks _ _ _ _ _ Hlist) as [Hasks Hcached].
  simpl in Hasks, Hcached.
  destruct (setControlModeSrvCall_listing _ _ _ _ _ _ _ _ _ Hcall Hlist) as [Hev Hmodes].
  rewrite Hev, Hmodes, Hasks, Hcached. split.
  - intros Hempty. rewrite Hempty. simpl. split; reflexivity.
  - intros Hfull. destruct (platform_available_modes_in_ (base self)) as [|m rest];
      [contradiction|]. simpl. split; reflexivity.
Qed.

End RequestProperties.

(** ** The control loop and the samples *)

Section LoopProperties.
Context {utils : ControlModeUtils} {S : Type} {hooks : ControllerPlugin S}.

(** X10.  On a tick that finds the platform armed and in offboard mode, a
    mode established, a state sample acquired and the bypass inactive, the
    subclass's [computeOutput] runs once and its three messages are published
    in the order pose, twist, thrust: pose and twist stamped with the one
    clock reading of the tick, the thrust carrying the pose's whole header.
    The payloads are the ones [computeOutput] returned and the base members
    are untouched. *)
Theorem direct_tick_publishes now (self : Controller S) pose0 twist0 thrust0 s' :
  bypass_controller_ (base self) = false ->
  armed (platform_info_ (base self)) = true ->
  offboard (platform_info_ (base self)) = true ->
  control_mode_established_ (base self) = true ->
  state_adquired_ (base self) = true ->
  computeOutput PoseStamped_default TwistStamped_default Thrust_default (plugin self)
    = (pose0, twist0, thrust0, s') ->
  exists pose_msg twist_msg thrust_msg,
    control_timer_callback now self =
      ({| base := base self; plugin := s' |},
       [HookComputeOutput; PublishPose pose_msg; PublishTwist twist_msg;
        PublishThrust thrust_msg]) /\
    stamp (pose_header pose_msg) = now /\
    stamp (twist_header twist_msg) = now /\
    thrust_header thrust_msg = pose_header pose_msg /\
    frame_id (pose_header pose_msg) = frame_id (pose_header pose0) /\
    frame_id (twist_header twist_msg) = frame_id (twist_header twist0) /\
    pose pose_msg = pose pose0 /\
    twist twist_msg = twist twist0 /\
    thrust thrust_msg = thrust thrust0.
Proof.
  intros Hbypass Harmed Hoffboard Hest Hstate Hcompute.
  unfold control_timer_callback, sendCommand.
  rewrite Harmed, Hoffboard, Hest, Hstate, Hbypass, Hcompute. simpl.
  eexists _, _, _. split; [reflexivity|]. repeat split.
Qed.

(** X11.  A tick never writes a member of the base class.  When the platform
    is not armed or not in offboard mode, no mode is established or no state
    sample is acquired, it leaves the whole object as it is, calls no hook
    and publishes nothing; the same holds on the bypass while no reference
    is acquired. *)
Theorem tick_waits now (self : Controller S) :
  base (fst (control_timer_callback now self)) = base self /\
  (armed (platform_info_ (base self)) = false \/
   offboard (platform_info_ (base self)) = false \/
   control_mode_established_ (base self) = false \/
   state_adquired_ (base self) = false \/
   (bypass_controller_ (base self) = true /\
    motion_reference_adquired_ (base self) = false) ->
   fst (control_timer_callback now self) = self /\
   existsb is_action (snd (control_timer_callback now self)) = false /\
   forall e, In e (snd (control_timer_callback now self)) ->
             exists text, e = LogThrottle INFO text).
Proof.
  unfold control_timer_callback, sendCommand. split.
  - repeat (break_match; simpl); reflexivity.
  - intros Hwait.
    destruct (armed (platform_info_ (base self))) eqn:Harmed;
      destruct (offboard (platform_info_ (base self))) eqn:Hoffboard;
      destruct (control_mode_established_ (base self)) eqn:Hest;
      destruct (state_adquired_ (base self)) eqn:Hstate;
      simpl;
      try (repeat split; intros e []; fail);
      try (repeat split; intros e [<-|[]]; eexists; reflexivity).
    destruct Hwait as [H|[H|[H|[H|[Hbypass Href]]]]]; try discriminate H.
    rewrite Hbypass, Href. simpl.
    repeat split. intros e [<-|[]]. eexists. reflexivity.
Qed.

(** X12.  One flag answers for the three kinds of reference.  On the bypass,
    on an otherwise eligible tick, nothing is published while no reference
    of any kind has arrived; as soon as one has, be it a twist or a
    trajectory point alone, the tick publishes the cached reference pose and
    twist, including one that was never received. *)
Theorem any_reference_unlocks_bypass now (self : Controller S) :
  bypass_controller_ (base self) = true ->
  armed (platform_info_ (base self)) = true ->
  offboard (platform_info_ (base self)) = true ->
  control_mode_established_ (base self) = true ->
  state_adquired_ (base self) = true ->
  motion_reference_adquired_ (base self) = false ->
  snd (control_timer_callback now self) =
    [LogThrottle INFO "Waiting for motion reference"] /\
  (forall ref_twist,
     snd (run [RefTwistSample ref_twist; TimerTick now] self) =
       [PublishPose (ref_pose_ (base self)); PublishTwist ref_twist]) /\
  (forall ref_traj,
     snd (run [RefTrajSample ref_traj; TimerTick now] self) =
       [PublishPose (ref_pose_ (base self)); PublishTwist (ref_twist_ (base self))]).
Proof.
  intros Hbypass Harmed Hoffboard Hest Hstate Href.
  split; [|split].
  - unfold control_timer_callback, sendCommand.
    rewrite Harmed, Hoffboard, Hest, Hstate, Hbypass, Href. reflexivity.
  - intros ref_twist. simpl.
    unfold ref_twist_callback, control_timer_callback, sendCommand.
    simpl. rewrite Hbypass. simpl.
    rewrite Harmed, Hoffboard, Hest, Hstate, Hbypass. reflexivity.
  - intros ref_traj. simpl.
    unfold ref_traj_callback, control_timer_callback, sendCommand.
    simpl. rewrite Hbypass. simpl.
    rewrite Harmed, Hoffboard, Hest, Hstate, Hbypass. reflexivity.
Qed.

(** What a sample callback forwards to the subclass. *)
Definition forwarded (i : Input) : list Event :=
  match i with
  | StateSample pose_msg twist_msg => [HookUpdateState pose_msg twist_msg]
  | RefPoseSample msg => [HookUpdateReferencePose msg]
  | RefTwistSample msg => [HookUpdateReferenceTwist msg]
  | RefTrajSample msg => [HookUpdateReferenceTraj msg]
  | _ => []
  end.

(** X13.  Every state or reference sample is stored with its acquired flag
    set, whether the controller is bypassed or not; it reaches the matching
    hook of the subclass, once and with the stored message, exactly when the
    bypass flag is clear.  A sample publishes nothing and leaves the
    established flag, the bypass flag, the negotiated modes and the three
    mode lists as they are. *)
Theorem sample_is_stored_and_forwarded (i : Input) (self : Controller S) :
  is_sample i = true ->
  cached i (base (fst (dispatch i self))) /\
  snd (dispatch i self) =
    (if bypass_controller_ (base self) then [] else forwarded i) /\
  (bypass_controller_ (base self) = true ->
   plugin (fst (dispatch i self)) = plugin self) /\
  control_mode_established_ (base (fst (dispatch i self)))
    = control_mode_established_ (base self) /\
  bypass_controller_ (base (fst (dispatch i self))) = bypass_controller_ (base self) /\
  input_mode_ (base (fst (dispatch i self))) = input_mode_ (base self) /\
  output_mode_ (base (fst (dispatch i self))) = output_mode_ (base self) /\
  platform_available_modes_in_ (base (fst (dispatch i self)))
    = platform_available_modes_in_ (base self) /\
  controller_available_modes_in_ (base (fst (dispatch i self)))
    = controller_available_modes_in_ (base self) /\
  controller_available_modes_out_ (base (fst (dispatch i self)))
    = controller_available_modes_out_ (base self).
Proof.
  intros Hsample.
  destruct i; try discriminate Hsample; simpl;
    unfold state_callback, ref_pose_callback, ref_twist_callback, ref_traj_callback;
    simpl; destruct (bypass_controller_ (base self)) eqn:Hbypass; simpl;
    repeat split; try reflexivity; try exact Hbypass;
    try (intros H; discriminate H).
Qed.

End LoopProperties.

(** ** Configuration: the setters *)

Lemma insert_ascending_comm x y l :
  insert_ascending x (insert_ascending y l) = insert_ascending y (insert_ascending x l).
Proof.
  induction l as [|a rest IH]; simpl.
  - destruct (Z.leb_spec x y), (Z.leb_spec y x); try reflexivity; try lia.
    assert (x = y) by lia. subst. reflexivity.
  - destruct (Z.leb_spec y a), (Z.leb_spec x a); simpl;
      repeat match goal with
             | |- context [?u <=? ?v] => destruct (Z.leb_spec u v)
             end;
      try reflexivity; try lia;
      try (assert (x = y) by lia; subst; reflexivity).
    rewrite IH. reflexivity.
Qed.

Lemma sort_ascending_order_free l1 l2 :
  Permutation l1 l2 -> sort_ascending l1 = sort_ascending l2.
Proof.
  induction 1 as [|x l l' _ IH|x y l|l l' l'' _ IH1 _ IH2]; simpl.
  - reflexivity.
  - rewrite IH. reflexivity.
  - apply insert_ascending_comm.
  - rewrite IH1. exact IH2.
Qed.

(** X14.  Each of the two setters stores the modes it is given in ascending
    order, with the same elements as often as they were given, and writes no
    other member; the order of the configured list is forgotten, so two
    configurations that list the same modes in different orders leave the
    same object. *)
Theorem setters_sort_and_forget_order (l1 l2 : list uint8_t) (b : ControllerBase) :
  (Sorted Z.le (controller_available_modes_in_ (setInputControlModesAvailables l1 b)) /\
   Permutation (controller_available_modes_in_ (setInputControlModesAvailables l1 b)) l1 /\
   controller_available_modes_out_ (setInputControlModesAvailables l1 b)
     = controller_available_modes_out_ b) /\
  (Sorted Z.le (controller_available_modes_out_ (setOutputControlModesAvailables l1 b)) /\
   Permutation (controller_available_modes_out_ (setOutputControlModesAvailables l1 b)) l1 /\
   controller_available_modes_in_ (setOutputControlModesAvailables l1 b)
     = controller_available_modes_in_ b) /\
  (Permutation l1 l2 ->
   setInputControlModesAvailables l1 b = setInputControlModesAvailables l2 b /\
   setOutputControlModesAvailables l1 b = setOutputControlModesAvailables l2 b).
Proof.
  unfold setInputControlModesAvailables, setOutputControlModesAvailables. simpl.
  repeat split; try apply sort_ascending_sorted; try apply sort_ascending_perm;
    rewrite (sort_ascending_order_free _ _ H); reflexivity.
Qed.

(** ** Objects the program can reach *)

Section ReachableProperties.
Context {utils : ControlModeUtils} {S : Type} {hooks : ControllerPlugin S}.

(** What only the setters write: the two mode lists; and what nothing
    writes: the preferred output mode. *)
Definition configuration_kept (b b' : ControllerBase) : Prop :=
  controller_available_modes_in_ b' = controller_available_modes_in_ b /\
  controller_available_modes_out_ b' = controller_available_modes_out_ b /\
  prefered_output_mode_ b' = prefered_output_mode_ b.

Lemma setControlModeSrvCall_keeps_configuration platform request
    (self self' : Controller S) success ev :
  setControlModeSrvCall platform request self = (self', success, ev) ->
  configuration_kept (base self) (base self').
Proof.
  unfold setControlModeSrvCall, setPlatformControlMode, configuration_kept. intros Hcall.
  destruct (listPlatformAvailableControlModes platform
              (set_control_mode_established_ false (base self)))
    as [[listed b1] ev_list] eqn:Hlist.
  assert (controller_available_modes_in_ b1 = controller_available_modes_in_ (base self) /\
          controller_available_modes_out_ b1 = controller_available_modes_out_ (base self) /\
          prefered_output_mode_ b1 = prefered_output_mode_ (base self)) as Hb1.
  { destruct (listPlatformAvailableControlModes_frame _ _ _ _ _ Hlist)
      as [->|(_ & _ & -> & _)]; repeat split. }
  repeat (break_match; simpl in *; inv_pair; try discriminate); simpl; exact Hb1.
Qed.

Lemma dispatch_keeps_configuration (i : Input) (self : Controller S) :
  configuration_kept (base self) (base (fst (dispatch i self))).
Proof.
  destruct i; simpl;
    unfold state_callback, ref_pose_callback, ref_twist_callback, ref_traj_callback,
      platform_info_callback, control_timer_callback, sendCommand;
    try (repeat (break_match; simpl); repeat split; fail).
  destruct (setControlModeSrvCall platform request self) as [[self' success] ev] eqn:Hcall.
  simpl. apply (setControlModeSrvCall_keeps_configuration _ _ _ _ _ _ Hcall).
Qed.

(** On every reachable object the two mode lists are in ascending order and
    the preferred output mode is 0. *)
Lemma reachable_configuration (self : Controller S) :
  reachable self ->
  Sorted Z.le (controller_available_modes_in_ (base self)) /\
  Sorted Z.le (controller_available_modes_out_ (base self)) /\
  prefered_output_mode_ (base self) = 0.
Proof.
  induction 1 as [use_bypass s|i self Hreach IH|modes self Hreach IH
                  |modes self Hreach IH|v self Hreach IH|v self Hreach IH].
  - simpl. destruct use_bypass; simpl; repeat split; constructor.
  - destruct (dispatch_keeps_configuration i self) as (-> & -> & ->). exact IH.
  - simpl. destruct IH as (_ & Hout & Hpref).
    repeat split; [apply sort_ascending_sorted|exact Hout|exact Hpref].
  - simpl. destruct IH as (Hin & _ & Hpref).
    repeat split; [exact Hin|apply sort_ascending_sorted|exact Hpref].
  - exact IH.
  - exact IH.
Qed.

(** X15.  Nothing ever sets the preferred output mode: on every reachable
    object it is 0, its branch of the output-mode search is never taken and
    the search is the scan of the controller's output list alone. *)
Theorem preferred_output_mode_never_set (self : Controller S)
    (output_mode input_mode : uint8_t) :
  reachable self ->
  prefered_output_mode_ (base self) = 0 /\
  findSuitableOutputControlModeForPlatformInputMode (base self) output_mode input_mode
    = scanOutputModes (base self) output_mode.
Proof.
  intros Hreach. destruct (reachable_configuration _ Hreach) as (_ & _ & Hpref).
  split; [exact Hpref|].
  unfold findSuitableOutputControlModeForPlatformInputMode. rewrite Hpref. reflexivity.
Qed.

Lemma land_MATCH_MODE_le_byte x : is_byte x -> Z.land x MATCH_MODE <= x.
Proof.
  intros Hx. rewrite <- (land_MATCH_ALL_byte x Hx) at 2.
  change MATCH_ALL with (Z.lor MATCH_MODE 0x0f).
  rewrite (land_disjoint_masks x MATCH_MODE 0x0f eq_refl).
  pose proof (land_mask_nonneg x 0x0f). lia.
Qed.

(** In an ascending list that holds [HOVER_MODE_MASK], the scan meets it
    before any byte of class HOVER that differs from it. *)
Lemma checkSuitabilityInputMode_loop_sorted input_mode modes :
  Sorted Z.le modes -> is_byte input_mode ->
  Z.land input_mode MATCH_MODE = HOVER_MODE_MASK ->
  In HOVER_MODE_MASK modes ->
  checkSuitabilityInputMode_loop input_mode modes = ReturnedTrue.
Proof.
  intros Hsorted Hbyte Hclass. apply Sorted_StronglySorted in Hsorted;
    [|intros x y z; apply Z.le_trans].
  induction Hsorted as [|mode rest Hrest IH Hall]; intros Hin; [destruct Hin|].
  cbn [checkSuitabilityInputMode_loop]. rewrite Hclass, Z.eqb_refl. cbn [andb].
  destruct (HOVER_MODE_MASK =? mode) eqn:Hmode; [reflexivity|].
  apply Z.eqb_neq in Hmode. destruct Hin as [Heq|Hin]; [congruence|].
  rewrite Forall_forall in Hall. pose proof (Hall _ Hin) as Hle.
  pose proof (land_MATCH_MODE_le_byte _ Hbyte) as Hge. rewrite Hclass in Hge.
  assert (mode <> input_mode) as Hne by lia.
  apply Z.eqb_neq in Hne. rewrite Hne. apply IH. exact Hin.
Qed.

(** X16.  On every reachable object whose accepted-input list holds
    [HOVER_MODE_MASK], every byte of class HOVER passes
    [checkSuitabilityInputMode] against every output mode, with no level
    check and no diagnostic: the list is kept in ascending order, so the scan
    returns at [HOVER_MODE_MASK] before it can meet the input itself. *)
Theorem hover_input_always_suitable (self : Controller S) (input_mode output_mode : uint8_t) :
  reachable self ->
  is_byte input_mode ->
  Z.land input_mode MATCH_MODE = HOVER_MODE_MASK ->
  In HOVER_MODE_MASK (controller_available_modes_in_ (base self)) ->
  checkSuitabilityInputMode (base self) input_mode output_mode = (true, []).
Proof.
  intros Hreach Hbyte Hclass Hin.
  destruct (reachable_configuration _ Hreach) as (Hsorted & _ & _).
  unfold checkSuitabilityInputMode.
  rewrite (checkSuitabilityInputMode_loop_sorted _ _ Hsorted Hbyte Hclass Hin).
  reflexivity.
Qed.

End ReachableProperties.

(** ** The bypass and the cache, along runs *)

Section RunProperties.
Context {utils : ControlModeUtils} {S : Type} {hooks : ControllerPlugin S}.

(** The object with both mode lists set anew. *)
Definition reconfigured (modes_in modes_out : list uint8_t) (self : Controller S)
    : Controller S :=
  {| base := setOutputControlModesAvailables modes_out
               (setInputControlModesAvailables modes_in (base self));
     plugin := plugin self |}.

Lemma bypass_path_reconfigured platform request (self : Controller S) b ev_list candidate
    modes_in modes_out :
  bypass_path platform request self b ev_list candidate ->
  bypass_path platform request (reconfigured modes_in modes_out self)
    (setOutputControlModesAvailables modes_out
       (setInputControlModesAvailables modes_in b)) ev_list candidate.
Proof.
  intros (b1 & Hlist & Huse & Htry & ->).
  exists (setOutputControlModesAvailables modes_out
            (setInputControlModesAvailables modes_in b1)).
  repeat split; try assumption.
  revert Hlist. unfold listPlatformAvailableControlModes. simpl.
  destruct (platform_available_modes_in_ (base self)).
  - destruct (list_control_modes platform) as [out control_modes].
    destruct out; simpl; [|discriminate].
    destruct control_modes; intros H; inv_pair; reflexivity.
  - intros H. inv_pair. reflexivity.
Qed.

(** X17.  A request that takes the bypass does not consult the controller's
    own mode lists: with the lists set to anything else it gives the same
    response, sends the same requests, calls the same hook and stores the
    same modes. *)
Theorem bypass_ignores_controller_lists platform request (self : Controller S)
    b ev_list candidate modes_in modes_out :
  bypass_path platform request self b ev_list candidate ->
  snd (fst (setControlModeSrvCall platform request (reconfigured modes_in modes_out self)))
    = snd (fst (setControlModeSrvCall platform request self)) /\
  snd (setControlModeSrvCall platform request (reconfigured modes_in modes_out self))
    = snd (setControlModeSrvCall platform request self) /\
  plugin (fst (fst (setControlModeSrvCall platform request
                      (reconfigured modes_in modes_out self))))
    = plugin (fst (fst (setControlModeSrvCall platform request self))) /\
  getMode (base (fst (fst (setControlModeSrvCall platform request
                             (reconfigured modes_in modes_out self)))))
    = getMode (base (fst (fst (setControlModeSrvCall platform request self)))) /\
  output_mode_ (base (fst (fst (setControlModeSrvCall platform request
                                  (reconfigured modes_in modes_out self)))))
    = output_mode_ (base (fst (fst (setControlModeSrvCall platform request self)))) /\
  In (CallSetPlatformControlMode (convertUint8tToAS2ControlMode candidate))
    (snd (setControlModeSrvCall platform request self)).
Proof.
  intros Hpath.
  pose proof (bypass_path_reconfigured _ _ _ _ _ _ modes_in modes_out Hpath) as Hpath'.
  pose proof (bypass_path_result _ _ _ _ _ _ Hpath) as Hresult.
  pose proof (bypass_path_result _ _ _ _ _ _ Hpath') as Hresult'.
  cbv zeta in Hresult, Hresult'. simpl plugin in Hresult'.
  rewrite Hresult, Hresult'.
  destruct Hpath as (b1 & _ & _ & _ & ->).
  destruct (fst (setPlatformControlMode platform
                   (convertUint8tToAS2ControlMode candidate))); simpl;
    repeat split; rewrite !in_app_iff; simpl; auto 10.
Qed.

Lemma dispatch_keeps_cache (i : Input) (self : Controller S) :
  platform_available_modes_in_ (base self) <> [] ->
  platform_available_modes_in_ (base (fst (dispatch i self)))
    = platform_available_modes_in_ (base self) /\
  count_events is_list_request (snd (dispatch i self)) = 0%nat.
Proof.
  intros Hcached.
  destruct i; simpl;
    unfold state_callback, ref_pose_callback, ref_twist_callback, ref_traj_callback,
      platform_info_callback, control_timer_callback, sendCommand;
    try (repeat (break_match; simpl); split; reflexivity).
  destruct (setControlModeSrvCall platform request self) as [[self' success] ev] eqn:Hcall.
  destruct (listPlatformAvailableControlModes platform
              (set_control_mode_established_ false (base self)))
    as [[listed b1] ev_list] eqn:Hlist.
  destruct (listPlatformAvailableControlModes_asks _ _ _ _ _ Hlist) as [Hasks Hsame].
  destruct (setControlModeSrvCall_listing _ _ _ _ _ _ _ _ _ Hcall Hlist) as [Hev Hmodes].
  simpl in *. rewrite count_events_app, Hev, Hasks, Hmodes, Hsame.
  destruct (platform_available_modes_in_ (base self)); [contradiction|].
  split; reflexivity.
Qed.

(** X18.  Once the platform's mode list is cached it is never invalidated:
    along every history of samples, ticks and requests, whatever the
    platform would answer now, the list stays as it is and no list request
    is sent again. *)
Theorem platform_list_never_refetched (history : list Input) (self : Controller S) :
  platform_available_modes_in_ (base self) <> [] ->
  platform_available_modes_in_ (base (fst (run history self)))
    = platform_available_modes_in_ (base self) /\
  count_events is_list_request (snd (run history self)) = 0%nat.
Proof.
  revert self. induction history as [|i rest IH]; intros self Hcached; simpl.
  - split; reflexivity.
  - destruct (dispatch_keeps_cache i self Hcached) as [Hsame Hnone].
    destruct (dispatch i self) as [self1 ev1]. simpl in Hsame, Hnone.
    assert (platform_available_modes_in_ (base self1) <> []) as Hcached1
      by (rewrite Hsame; exact Hcached).
    destruct (IH self1 Hcached1) as [Hsame' Hnone'].
    destruct (run rest self1) as [self2 ev2]. simpl in *.
    rewrite count_events_app, Hnone, Hnone', Hsame', Hsame. split; reflexivity.
Qed.

End RunProperties.

(** ** The further properties on the scenarios *)

Ltac bytes :=
  simpl; repeat first [apply Forall_nil | apply Forall_cons];
  unfold is_byte; lia.

(** A platform whose list service is down. *)
Definition deaf_platform : PlatformServices :=
  {| list_control_modes := (false, []);
     set_platform_control_mode := fun _ => (true, true) |}.

(** Bypass enabled, HOVER and class 4 configured. *)
Definition bypass_hover_scenario : Controller Z := configured true [0x10; 0x40] [0x40] 7.

(** Class 4 negotiated on the direct path, then a state sample. *)
Definition flying_class4 : Controller Z :=
  fst (run [PlatformInfoSample flying;
            SetControlModeCall (willing_platform [0x40]) (request_for 0x40);
            StateSample state_pose_1 state_twist_1] class4_scenario).

(** 0x55 negotiated on the bypass, then a state sample and no reference. *)
Definition bypassing_without_reference : Controller Z :=
  fst (run [PlatformInfoSample flying;
            SetControlModeCall (willing_platform [0x55]) (request_for 0x55);
            StateSample state_pose_1 state_twist_1] (bypass_scenario 7)).

(** X2 with the platform advertising 0x55 and 0x40. *)
Lemma tryToBypassController_bytes_witness :
  tryToBypassController
    (set_platform_available_modes_in_ [0x55; 0x40] (base (bypass_scenario 7))) 0x55 0
    = (true, 0x55) /\
  tryToBypassController
    (set_platform_available_modes_in_ [0x55; 0x40] (base (bypass_scenario 7))) 0x56 0
    = (false, 0).
Proof.
  split.
  - exact (tryToBypassController_bytes
             (set_platform_available_modes_in_ [0x55; 0x40] (base (bypass_scenario 7)))
             0x55 0 ltac:(bytes) ltac:(bytes)).
  - exact (tryToBypassController_bytes
             (set_platform_available_modes_in_ [0x55; 0x40] (base (bypass_scenario 7)))
             0x56 0 ltac:(bytes) ltac:(bytes)).
Defined.

(** X3 where the platform advertises 0x20 and the controller lists 0x20
    before 0x31: the search fails. *)
Lemma output_mode_search_bytes_witness :
  findSuitableOutputControlModeForPlatformInputMode
    (set_platform_available_modes_in_ [0x20]
       (base (configured false [] [0x31; 0x20] 7))) 0 0x20 = (false, 0).
Proof.
  exact (output_mode_search_bytes
           (set_platform_available_modes_in_ [0x20]
              (base (configured false [] [0x31; 0x20] 7))) 0 0x20
           eq_refl ltac:(bytes) ltac:(bytes)).
Defined.

(** X4 on a HOVER request to a platform that advertises the HOVER code, with
    the bypass enabled. *)
Lemma unset_and_hover_never_bypass_witness :
  snd (fst (setControlModeSrvCall (willing_platform [0x10; 0x40]) hover_request
              bypass_hover_scenario)) = true /\
  bypass_controller_
    (base (fst (fst (setControlModeSrvCall (willing_platform [0x10; 0x40]) hover_request
                       bypass_hover_scenario)))) = false.
Proof.
  split; [vm_compute; reflexivity|].
  apply (proj2 (unset_and_hover_never_bypass (utils := packed_utils) (hooks := stub_plugin)
                  (willing_platform [0x10; 0x40]) hover_request bypass_hover_scenario
                  (fst (fst (setControlModeSrvCall (willing_platform [0x10; 0x40])
                               hover_request bypass_hover_scenario)))
                  true
                  (snd (setControlModeSrvCall (willing_platform [0x10; 0x40])
                          hover_request bypass_hover_scenario))
                  ltac:(vm_compute; reflexivity) ltac:(vm_compute; reflexivity))).
  reflexivity.
Defined.

(** X5 on a request made while flying in class 4. *)
Lemma setControlModeSrvCall_frame_witness :
  controller_available_modes_in_
    (base (fst (fst (setControlModeSrvCall (willing_platform [0x40]) (request_for 0x60)
                       flying_class4)))) = [0x40; 0x60] /\
  pose_ (base (fst (fst (setControlModeSrvCall (willing_platform [0x40]) (request_for 0x60)
                           flying_class4)))) = state_pose_1 /\
  platform_info_
    (base (fst (fst (setControlModeSrvCall (willing_platform [0x40]) (request_for 0x60)
                       flying_class4)))) = flying.
Proof.
  destruct (setControlModeSrvCall_frame (utils := packed_utils) (hooks := stub_plugin)
              (willing_platform [0x40]) (request_for 0x60) flying_class4
              (fst (fst (setControlModeSrvCall (willing_platform [0x40]) (request_for 0x60)
                           flying_class4)))
              (snd (fst (setControlModeSrvCall (willing_platform [0x40]) (request_for 0x60)
                           flying_class4)))
              (snd (setControlModeSrvCall (willing_platform [0x40]) (request_for 0x60)
                      flying_class4)))
    as (Hin & _ & Hinfo & _ & _ & Hpose & _).
  - vm_compute. reflexivity.
  - split; [exact Hin|]. split; [exact Hpose|exact Hinfo].
Defined.

(** X6 on a request for 0x21, which the controller does not accept, made
    while flying in class 4. *)
Lemma early_failure_keeps_modes_witness :
  snd (fst (setControlModeSrvCall (willing_platform [0x40]) (request_for 0x21)
              flying_class4)) = false /\
  getMode (base (fst (fst (setControlModeSrvCall (willing_platform [0x40])
                             (request_for 0x21) flying_class4)))) = request_for 0x40 /\
  state_adquired_ (base (fst (fst (setControlModeSrvCall (willing_platform [0x40])
                                     (request_for 0x21) flying_class4)))) = true.
Proof.
  split; [vm_compute; reflexivity|].
  destruct (early_failure_keeps_modes (utils := packed_utils) (hooks := stub_plugin)
              (willing_platform [0x40]) (request_for 0x21) flying_class4
              (fst (fst (setControlModeSrvCall (willing_platform [0x40]) (request_for 0x21)
                           flying_class4)))
              (snd (setControlModeSrvCall (willing_platform [0x40]) (request_for 0x21)
                      flying_class4)))
    as (_ & Hmode & _ & Hstate & _).
  - vm_compute. reflexivity.
  - intros mode_in mode_out Hin. vm_compute in Hin.
    repeat match goal with
           | H : _ \/ _ |- _ => destruct H
           | H : False |- _ => destruct H
           | H : _ = _ |- _ => discriminate H
           end.
  - split; [exact Hmode|exact Hstate].
Defined.

(** X7 on the request that established class 4. *)
Lemma success_means_both_agreed_witness :
  set_platform_control_mode (willing_platform [0x40])
    (output_mode_ (base (fst (fst (setControlModeSrvCall (willing_platform [0x40])
                                     (request_for 0x40) class4_scenario)))))
    = (true, true) /\
  getMode (base (fst (fst (setControlModeSrvCall (willing_platform [0x40])
                             (request_for 0x40) class4_scenario)))) = request_for 0x40.
Proof.
  destruct (success_means_both_agreed (utils := packed_utils) (hooks := stub_plugin)
              (willing_platform [0x40]) (request_for 0x40) class4_scenario
              (fst (fst (setControlModeSrvCall (willing_platform [0x40]) (request_for 0x40)
                           class4_scenario)))
              (snd (setControlModeSrvCall (willing_platform [0x40]) (request_for 0x40)
                      class4_scenario)))
    as (_ & Haccepted & Hmode & _).
  - vm_compute. reflexivity.
  - split; [exact Haccepted|exact Hmode].
Defined.

(** X8 on the same request. *)
Lemma request_calls_at_most_once_witness :
  Nat.le (count_events is_list_request
            (snd (setControlModeSrvCall (willing_platform [0x40]) (request_for 0x40)
                    class4_scenario))) 1 /\
  Nat.le (count_events is_mode_set_request
            (snd (setControlModeSrvCall (willing_platform [0x40]) (request_for 0x40)
                    class4_scenario))) 1 /\
  Nat.le (count_events is_setMode_call
            (snd (setControlModeSrvCall (willing_platform [0x40]) (request_for 0x40)
                    class4_scenario))) 1.
Proof.
  apply (request_calls_at_most_once (utils := packed_utils) (hooks := stub_plugin)
           (willing_platform [0x40]) (request_for 0x40) class4_scenario
           (fst (fst (setControlModeSrvCall (willing_platform [0x40]) (request_for 0x40)
                        class4_scenario)))
           (snd (fst (setControlModeSrvCall (willing_platform [0x40]) (request_for 0x40)
                        class4_scenario)))).
  vm_compute. reflexivity.
Defined.

(** X9 on a request to a platform whose list service is down, and on a
    request made once the list is cached. *)
Lemma listing_is_cached_once_witness :
  (count_events is_list_request
     (snd (setControlModeSrvCall deaf_platform (request_for 0x40) class4_scenario))
     = 1%nat /\
   platform_available_modes_in_
     (base (fst (fst (setControlModeSrvCall deaf_platform (request_for 0x40)
                        class4_scenario)))) = []) /\
  (count_events is_list_request
     (snd (setControlModeSrvCall (willing_platform [0x60]) (request_for 0x40)
             flying_class4)) = 0%nat /\
   platform_available_modes_in_
     (base (fst (fst (setControlModeSrvCall (willing_platform [0x60]) (request_for 0x40)
                        flying_class4)))) = [0x40]).
Proof.
  split.
  - destruct (listing_is_cached_once (utils := packed_utils) (hooks := stub_plugin)
                deaf_platform (request_for 0x40) class4_scenario
                (fst (fst (setControlModeSrvCall deaf_platform (request_for 0x40)
                             class4_scenario)))
                (snd (fst (setControlModeSrvCall deaf_platform (request_for 0x40)
                             class4_scenario)))
                (snd (setControlModeSrvCall deaf_platform (request_for 0x40)
                        class4_scenario))) as [Hnever _].
    + vm_compute. reflexivity.
    + apply Hnever. reflexivity.
  - destruct (listing_is_cached_once (utils := packed_utils) (hooks := stub_plugin)
                (willing_platform [0x60]) (request_for 0x40) flying_class4
                (fst (fst (setControlModeSrvCall (willing_platform [0x60])
                             (request_for 0x40) flying_class4)))
                (snd (fst (setControlModeSrvCall (willing_platform [0x60])
                             (request_for 0x40) flying_class4)))
                (snd (setControlModeSrvCall (willing_platform [0x60])
                        (request_for 0x40) flying_class4))) as [_ Hcached].
    + vm_compute. reflexivity.
    + apply Hcached. vm_compute. discriminate.
Defined.

(** X10 on the tick at 10 s while flying in class 4. *)
Lemma direct_tick_publishes_witness :
  exists pose_msg twist_msg thrust_msg,
    control_timer_callback (at_time 10) flying_class4 =
      ({| base := base flying_class4; plugin := 4 |},
       [HookComputeOutput; PublishPose pose_msg; PublishTwist twist_msg;
        PublishThrust thrust_msg]) /\
    stamp (pose_header pose_msg) = at_time 10 /\
    stamp (twist_header twist_msg) = at_time 10 /\
    thrust_header thrust_msg = pose_header pose_msg /\
    frame_id (pose_header pose_msg) = frame_id (pose_header PoseStamped_default) /\
    frame_id (twist_header twist_msg) = frame_id (twist_header TwistStamped_default) /\
    pose pose_msg = pose PoseStamped_default /\
    twist twist_msg = twist TwistStamped_default /\
    thrust thrust_msg = thrust Thrust_default.
Proof.
  apply (direct_tick_publishes (hooks := stub_plugin)
           (at_time 10) flying_class4
           PoseStamped_default TwistStamped_default Thrust_default 4).
  - vm_compute. reflexivity.
  - vm_compute. reflexivity.
  - vm_compute. reflexivity.
  - vm_compute. reflexivity.
  - vm_compute. reflexivity.
  - vm_compute. reflexivity.
Defined.

(** X12 while bypassing with a state sample and no reference yet: a twist
    alone makes the tick publish the pose nobody sent. *)
Lemma any_reference_unlocks_bypass_witness :
  snd (control_timer_callback (at_time 10) bypassing_without_reference) =
    [LogThrottle INFO "Waiting for motion reference"] /\
  snd (run [RefTwistSample reference_twist_3; TimerTick (at_time 10)]
         bypassing_without_reference) =
    [PublishPose PoseStamped_default; PublishTwist reference_twist_3].
Proof.
  destruct (any_reference_unlocks_bypass (utils := packed_utils) (hooks := stub_plugin)
              (at_time 10) bypassing_without_reference) as (Hwait & Htwist & _).
  - vm_compute. reflexivity.
  - vm_compute. reflexivity.
  - vm_compute. reflexivity.
  - vm_compute. reflexivity.
  - vm_compute. reflexivity.
  - vm_compute. reflexivity.
  - split; [exact Hwait|exact (Htwist reference_twist_3)].
Defined.

(** X13 on a reference pose, bypassed and not. *)
Lemma sample_is_stored_and_forwarded_witness :
  (cached (RefPoseSample reference_pose_2)
     (base (fst (dispatch (RefPoseSample reference_pose_2) bypassing_without_reference))) /\
   snd (dispatch (RefPoseSample reference_pose_2) bypassing_without_reference) = []) /\
  (cached (RefPoseSample reference_pose_2)
     (base (fst (dispatch (RefPoseSample reference_pose_2) flying_class4))) /\
   snd (dispatch (RefPoseSample reference_pose_2) flying_class4) =
     [HookUpdateReferencePose reference_pose_2]).
Proof.
  split.
  - destruct (sample_is_stored_and_forwarded (utils := packed_utils) (hooks := stub_plugin)
                (RefPoseSample reference_pose_2) bypassing_without_reference eq_refl)
      as (Hcached & Hev & _).
    split; [exact Hcached|exact Hev].
  - destruct (sample_is_stored_and_forwarded (utils := packed_utils) (hooks := stub_plugin)
                (RefPoseSample reference_pose_2) flying_class4 eq_refl)
      as (Hcached & Hev & _).
    split; [exact Hcached|exact Hev].
Defined.

(** X15 while flying in class 4. *)
Lemma preferred_output_mode_never_set_witness :
  prefered_output_mode_ (base flying_class4) = 0 /\
  findSuitableOutputControlModeForPlatformInputMode (base flying_class4) 0 0x40
    = scanOutputModes (base flying_class4) 0.
Proof.
  apply (preferred_output_mode_never_set (utils := packed_utils) (hooks := stub_plugin)).
  unfold flying_class4. apply run_reachable. apply configured_reachable.
Defined.

(** X16 on the HOVER code with a frame bit, 0x12, against output 0x40. *)
Lemma hover_input_always_suitable_witness :
  checkSuitabilityInputMode (base hover_scenario) 0x12 0x40 = (true, []).
Proof.
  apply (hover_input_always_suitable (utils := packed_utils) (hooks := stub_plugin)).
  - apply configured_reachable.
  - unfold is_byte. lia.
  - reflexivity.
  - simpl. left. reflexivity.
Defined.

(** X17 on the bypass request for 0x55, with the controller's lists set to
    0x20 and 0x30. *)
Lemma bypass_ignores_controller_lists_witness :
  snd (fst (setControlModeSrvCall (willing_platform [0x55]) (request_for 0x55)
              (reconfigured [0x20] [0x30] (bypass_scenario 7))))
    = snd (fst (setControlModeSrvCall (willing_platform [0x55]) (request_for 0x55)
                  (bypass_scenario 7))) /\
  snd (setControlModeSrvCall (willing_platform [0x55]) (request_for 0x55)
         (reconfigured [0x20] [0x30] (bypass_scenario 7)))
    = snd (setControlModeSrvCall (willing_platform [0x55]) (request_for 0x55)
             (bypass_scenario 7)).
Proof.
  destruct (bypass_ignores_controller_lists (utils := packed_utils) (hooks := stub_plugin)
              (willing_platform [0x55]) (request_for 0x55) (bypass_scenario 7)
              (set_bypass_controller_ true
                 (set_platform_available_modes_in_ [0x55] (base (bypass_scenario 7))))
              [Log DEBUG "LISTING AVAILABLE MODES"; CallListControlModes;
               Log DEBUG "Available mode: %s"]
              0x55 [0x20] [0x30]) as (Hresponse & Hevents & _).
  - exists (set_platform_available_modes_in_ [0x55] (base (bypass_scenario 7))).
    split; [vm_compute; reflexivity|]. split; [vm_compute; reflexivity|].
    split; vm_compute; reflexivity.
  - split; [exact Hresponse|exact Hevents].
Defined.

(** X18 while flying in class 4: a later request to a platform that would now
    advertise 0x60 finds the cached list and sends no list request. *)
Lemma platform_list_never_refetched_witness :
  platform_available_modes_in_
    (base (fst (run [SetControlModeCall (willing_platform [0x60]) (request_for 0x60);
                     TimerTick (at_time 10)] flying_class4))) = [0x40] /\
  count_events is_list_request
    (snd (run [SetControlModeCall (willing_platform [0x60]) (request_for 0x60);
               TimerTick (at_time 10)] flying_class4)) = 0%nat.
Proof.
  apply (platform_list_never_refetched (utils := packed_utils) (hooks := stub_plugin)
           [SetControlModeCall (willing_platform [0x60]) (request_for 0x60);
            TimerTick (at_time 10)] flying_class4).
  vm_compute. discriminate.
Defined.

(** With the bypass disabled: class 4 is negotiated, a state sample arrives,
    and the tick at 10 s acts. *)
Lemma no_bypass_never_acts_early_witness :
  armed (platform_info_ (base flying_class4)) = true /\
  offboard (platform_info_ (base flying_class4)) = true /\
  control_mode_established_ (base flying_class4) = true /\
  state_sample_since_negotiation false
    [PlatformInfoSample flying;
     SetControlModeCall (willing_platform [0x40]) (request_for 0x40);
     StateSample state_pose_1 state_twist_1] = true.
Proof.
  apply (no_bypass_never_acts_early (utils := packed_utils) (hooks := stub_plugin)
           [PlatformInfoSample flying;
            SetControlModeCall (willing_platform [0x40]) (request_for 0x40);
            StateSample state_pose_1 state_twist_1] class4_scenario false (at_time 10)).
  - vm_compute. reflexivity.
  - intros Hest. vm_compute in Hest. discriminate Hest.
  - vm_compute. reflexivity.
Defined.

(** The request for 0x60 made while flying in class 4 reaches [setMode] off
    the bypass and is refused: both flags are cleared all the same. *)
Lemma direct_setMode_clears_acquired_witness :
  snd (fst (setControlModeSrvCall (willing_platform [0x40]) (request_for 0x60)
              flying_class4)) = false /\
  state_adquired_ (base flying_class4) = true /\
  state_adquired_
    (base (fst (fst (setControlModeSrvCall (willing_platform [0x40]) (request_for 0x60)
                       flying_class4)))) = false /\
  motion_reference_adquired_
    (base (fst (fst (setControlModeSrvCall (willing_platform [0x40]) (request_for 0x60)
                       flying_class4)))) = false.
Proof.
  split; [vm_compute; reflexivity|]. split; [vm_compute; reflexivity|].
  apply (direct_setMode_clears_acquired (utils := packed_utils) (hooks := stub_plugin)
           (willing_platform [0x40]) (request_for 0x60) flying_class4
           (fst (fst (setControlModeSrvCall (willing_platform [0x40]) (request_for 0x60)
                        flying_class4)))
           false
           (snd (setControlModeSrvCall (willing_platform [0x40]) (request_for 0x60)
                   flying_class4))
           (request_for 0x60) (request_for 0x40)).
  - vm_compute. reflexivity.
  - vm_compute. repeat (first [left; reflexivity | right]).
  - vm_compute. reflexivity.
Defined.

(** The bypass request for 0x55 after samples have arrived. *)
Lemma bypass_success_keeps_acquired_witness :
  bypass_controller_
    (base (fst (fst (setControlModeSrvCall (willing_platform [0x55]) (request_for 0x55)
                       (fst (run [StateSample state_pose_1 state_twist_1;
                                  RefPoseSample reference_pose_2]
                              (bypass_scenario 7))))))) = true /\
  state_adquired_
    (base (fst (fst (setControlModeSrvCall (willing_platform [0x55]) (request_for 0x55)
                       (fst (run [StateSample state_pose_1 state_twist_1;
                                  RefPoseSample reference_pose_2]
                              (bypass_scenario 7))))))) = true.
Proof.
  destruct (bypass_success_keeps_acquired (utils := packed_utils) (hooks := stub_plugin)
              (willing_platform [0x55]) (request_for 0x55)
              (fst (run [StateSample state_pose_1 state_twist_1;
                         RefPoseSample reference_pose_2] (bypass_scenario 7)))
              (fst (fst (setControlModeSrvCall (willing_platform [0x55]) (request_for 0x55)
                           (fst (run [StateSample state_pose_1 state_twist_1;
                                      RefPoseSample reference_pose_2]
                                   (bypass_scenario 7))))))
              (set_bypass_controller_ true
                 (set_platform_available_modes_in_ [0x55]
                    (base (fst (run [StateSample state_pose_1 state_twist_1;
                                     RefPoseSample reference_pose_2]
                                  (bypass_scenario 7))))))
              [Log DEBUG "LISTING AVAILABLE MODES"; CallListControlModes;
               Log DEBUG "Available mode: %s"]
              0x55
              (snd (setControlModeSrvCall (willing_platform [0x55]) (request_for 0x55)
                      (fst (run [StateSample state_pose_1 state_twist_1;
                                 RefPoseSample reference_pose_2]
                              (bypass_scenario 7))))))
    as (Hbypass & _ & Hstate & _).
  - exists (set_platform_available_modes_in_ [0x55]
              (base (fst (run [StateSample state_pose_1 state_twist_1;
                               RefPoseSample reference_pose_2] (bypass_scenario 7))))).
    split; [vm_compute; reflexivity|]. split; [vm_compute; reflexivity|].
    split; vm_compute; reflexivity.
  - vm_compute. reflexivity.
  - split; [exact Hbypass|]. rewrite Hstate. vm_compute. reflexivity.
Defined.
